(** * modelscope/pipelines/base.py: the [Pipeline] base class

    A shallow embedding of [Pipeline] (model resolution, construction,
    [__call__] over scalar / list / dataset inputs, single-item processing
    and output-key validation), followed by the properties of the
    specification that concern it.

    Python objects are values of an inductive type; exceptions are an
    explicit error result; the logger, the file system, the model hub and the
    models themselves live in a world that every call threads through. *)

From Stdlib Require Import ZArith.
From stdpp Require Import gmap strings list fin_maps.

(* String literals are Python strings; [++], [≤] and the like stay those of
   lists and natural numbers. *)
Open Scope string_scope.
Open Scope list_scope.
Open Scope nat_scope.

(** ** Python values *)

(** The objects the pipeline looks at with [isinstance] or tests for
    truthiness.  [VModel] is an instance of [modelscope.models.base.Model],
    [VPreprocessor] of [Preprocessor], [VDataset] of [PyDataset] (with the
    items it produces, in iteration order); [VObject] is an instance of any
    other class. *)
#[warnings="-register-all"]
Inductive value : Type :=
  | VNone
  | VBool (b : bool)
  | VInt (z : Z)
  | VStr (s : string)
  | VTuple (items : list value)
  | VList (items : list value)
  | VDict (items : list (string * value))
  | VModel (m : nat)
  | VPreprocessor (p : nat)
  | VDataset (items : list value)
  | VObject (cls : string) (ident : nat).

(** [type(v)], as it is printed in error messages. *)
Inductive pytype : Type :=
  | TNoneType | TBool | TInt | TStr | TTuple | TList | TDict
  | TModel | TPreprocessor | TPyDataset
  | TClass (name : string).

Definition type_of (v : value) : pytype :=
  match v with
  | VNone => TNoneType
  | VBool _ => TBool
  | VInt _ => TInt
  | VStr _ => TStr
  | VTuple _ => TTuple
  | VList _ => TList
  | VDict _ => TDict
  | VModel _ => TModel
  | VPreprocessor _ => TPreprocessor
  | VDataset _ => TPyDataset
  | VObject cls _ => TClass cls
  end.

Definition isinstance_str (v : value) : bool :=
  match v with VStr _ => true | _ => false end.

Definition isinstance_Model (v : value) : bool :=
  match v with VModel _ => true | _ => false end.

Definition isinstance_list (v : value) : bool :=
  match v with VList _ => true | _ => false end.

Definition isinstance_PyDataset (v : value) : bool :=
  match v with VDataset _ => true | _ => false end.

Definition nonempty {A : Type} (l : list A) : bool :=
  match l with [] => false | _ :: _ => true end.

(** Python truth value ([bool(v)]): [None], [False], [0], the empty string
    and the empty containers are falsy; every other object is truthy, as
    instances are of classes that define neither [__bool__] nor [__len__]. *)
Definition truthy (v : value) : bool :=
  match v with
  | VNone => false
  | VBool b => b
  | VInt z => negb (z =? 0)%Z
  | VStr s => negb (String.eqb s "")
  | VTuple items => nonempty items
  | VList items => nonempty items
  | VDict items => nonempty items
  | VModel _ => true
  | VPreprocessor _ => true
  | VDataset _ => true
  | VObject _ _ => true
  end.

(** Keyword arguments, output mappings and parsed configurations are
    dictionaries with string keys. *)
Abbreviation pydict := (gmap string value).

(** ** Exceptions and log records *)

(** The two [ValueError] messages of the module keep the values that their
    f-strings interpolate:
    - [MsgModelType ty]: 'model type for single model is either str or
      Model, but got type {ty}';
    - [MsgMissingKeys output_keys missing_keys]: 'expected output keys are
      {output_keys}, those {missing_keys} are missing'. *)
Inductive error_message : Type :=
  | MsgModelType (ty : pytype)
  | MsgMissingKeys (output_keys missing_keys : list string)
  | MsgText (s : string).

Inductive exn : Type :=
  | ValueError (msg : error_message)
  | AssertionError (msg : string)
  | AttributeError (attr : string)
  | TypeError (msg : string)
  | NotImplementedError (msg : string)
  | StopIteration
  | RuntimeError (msg : string)
  | ExternalError (cls msg : string).

Inductive result (A : Type) : Type :=
  | Ok (a : A)
  | Raise (e : exn).
Arguments Ok {A} a.
Arguments Raise {A} e.

Definition is_ok {A : Type} (r : result A) : bool :=
  match r with Ok _ => true | Raise _ => false end.

(** [logger.info(f'initiate model from {model}')] and
    [logger.warning(f'task {task_name} output keys are missing')]. *)
Inductive log_record : Type :=
  | LogInfoInitiateModel (model : value)
  | LogWarningOutputKeysMissing (task_name : string).

(** ** The world and the monad of pipeline code *)

Section World.

(** State of everything outside the module: file system, hub cache, the
    models' and preprocessors' own state. *)
Context {U : Type}.

Record world : Type := World { logs : list log_record; ext : U }.

(** A computation runs in a world and either returns or raises; the world it
    leaves behind is kept in both cases. *)
Definition M (A : Type) : Type := world -> result A * world.

Definition ret {A : Type} (a : A) : M A := fun w => (Ok a, w).

Definition raise {A : Type} (e : exn) : M A := fun w => (Raise e, w).

Definition bind {A B : Type} (c : M A) (k : A -> M B) : M B :=
  fun w =>
    match c w with
    | (Ok a, w') => k a w'
    | (Raise e, w') => (Raise e, w')
    end.

(** The world once the logger has written one more record. *)
Definition with_log (r : log_record) (w : world) : world :=
  {| logs := logs w ++ [r]; ext := ext w |}.

Definition logger_emit (r : log_record) : M unit :=
  fun w => (Ok tt, with_log r w).

(** [assert cond, msg] *)
Definition py_assert (cond : bool) (msg : string) : M unit :=
  if cond then ret tt else raise (AssertionError msg).

End World.

Arguments world : clear implicits.
Arguments M : clear implicits.

Notation "'do' x <- c ; k" := (bind c (fun x => k))
  (at level 10, x name, c at level 100, k at level 200).

(** ** Collaborators outside the module *)

(** What the module imports: [is_official_hub_path] and [is_model] of
    [pipelines/util.py], [os.path.exists], [snapshot_download] of the hub,
    [Model.from_pretrained], [Config.from_file], calling a model or a
    preprocessor, and the table [TASK_OUTPUTS] of [pipelines/outputs.py].
    None of them is part of the module: they are parameters, free to read
    and change the world and to raise. *)
Record externals {U : Type} : Type := Externals {
  is_official_hub_path : string -> M U bool;
  osp_exists : string -> M U bool;
  snapshot_download : string -> M U string;
  is_model : string -> M U bool;
  Model_from_pretrained : string -> M U nat;
  Config_from_file : string -> M U pydict;
  Model_call : nat -> value -> pydict -> M U value;
  Preprocessor_call : nat -> value -> pydict -> M U value;
  TASK_OUTPUTS : gmap string (list string);
}.
Arguments externals : clear implicits.

(** ** The pipeline object *)

(** The attributes [__init__] sets on [self].  [cfg] and [model] are
    attributes that [__init__] sets on some paths only: [None] here means
    that the attribute does not exist (reading it raises [AttributeError]),
    [Some VNone] is the Python value [None]. *)
Record pipeline : Type := Pipeline {
  cfg : option pydict;
  model : option value;
  models : list value;
  has_multiple_models : bool;
  preprocessor : value;
}.

Section Resolver.

Context {U : Type} (E : externals U).

(** [self.<attr>] for an attribute that may not have been set. *)
Definition getattr {A : Type} (attr : string) (slot : option A) : M U A :=
  match slot with
  | Some a => ret a
  | None => raise (AttributeError attr)
  end.

(** The [if] branch of [initiate_single_model]: [model] is a [str] that
    [is_official_hub_path] accepts. *)
Definition initiate_from_hub (s : string) : M U value :=
  do there <- osp_exists E s ;
  do path <- (if negb there then snapshot_download E s else ret s) ;
  do known <- is_model E path ;
  if known then
    do m <- Model_from_pretrained E path ;
    ret (VModel m)
  else ret (VStr path).

(** The [elif] and [else] branches. *)
Definition initiate_other (model : value) : M U value :=
  if isinstance_Model model then ret model
  else if truthy model && negb (isinstance_str model)
       then raise (ValueError (MsgModelType (type_of model)))
       else ret model.

(** [isinstance(model, str) and is_official_hub_path(model)]: the second
    conjunct is evaluated for strings only. *)
Definition is_hub_str (model : value) : M U bool :=
  match model with
  | VStr s => is_official_hub_path E s
  | _ => ret false
  end.

Definition initiate_single_model (model : value) : M U value :=
  do _ <- logger_emit (LogInfoInitiateModel model) ;
  do hub <- is_hub_str model ;
  if hub then
    match model with
    | VStr s => initiate_from_hub s
    | _ => initiate_other model
    end
  else initiate_other model.

(** The loop of [initiate_multiple_models], [models] being the list built so
    far. *)
Fixpoint initiate_models_loop (input_models models : list value)
  : M U (list value) :=
  match input_models with
  | [] => ret models
  | model :: rest =>
      do m <- initiate_single_model model ;
      initiate_models_loop rest (models ++ [m])
  end.

Definition initiate_multiple_models (input_models : list value)
  : M U (list value) :=
  initiate_models_loop input_models [].

(** [Pipeline.__init__(config_file, model, preprocessor)]; [config_file] is
    [None] when the argument is left out. *)
Definition __init__ (config_file : option string) (model preprocessor : value)
  : M U pipeline :=
  do cfg <- match config_file with
            | Some f => do c <- Config_from_file E f ; ret (Some c)
            | None => ret None
            end ;
  do attrs <- match model with
              | VList input_models =>
                  do models <- initiate_multiple_models input_models ;
                  ret (None, models)
              | _ =>
                  do m <- initiate_single_model model ;
                  ret (Some m, [m])
              end ;
  ret {| cfg := cfg;
         model := attrs.1;
         models := attrs.2;
         has_multiple_models := bool_decide (1 < length attrs.2);
         preprocessor := preprocessor |}.

End Resolver.

(** ** Methods *)

(** The methods [_process_single] reaches through [self], and the task name
    [group_key] that the registry attaches to the class.  A concrete
    pipeline class fills the slots with its own methods or leaves the
    defaults of the base class (below) in place; [m_postprocess] is
    abstract in the base class. *)
Record pipeline_class {U : Type} : Type := PipelineClass {
  group_key : string;
  m_sanitize_parameters : pipeline -> pydict -> M U (pydict * pydict * pydict);
  m_preprocess : pipeline -> value -> pydict -> M U value;
  m_forward : pipeline -> value -> pydict -> M U value;
  m_postprocess : pipeline -> value -> pydict -> M U pydict;
}.
Arguments pipeline_class : clear implicits.

(** What [__call__] returns: one output mapping, the list of them, or the
    generator object of [_process_iterator].  The generator's frame holds
    the items its [for] loop has not reached yet ([None] once the generator
    has finished or raised) and the arguments of the call. *)
Record generator : Type := Generator {
  gen_rest : option (list value);
  gen_args : list value;
  gen_kwargs : pydict;
}.

Inductive call_output : Type :=
  | OutSingle (out : pydict)
  | OutList (outs : list pydict)
  | OutGenerator (g : generator).

Section Pipeline.

Context {U : Type} (E : externals U).

(** [f(inputs, **params)]: models and preprocessors are callable, the
    built-in values and plain objects are not (Python's message also names
    the type of [f]). *)
Definition py_call (f inputs : value) (params : pydict) : M U value :=
  match f with
  | VModel m => Model_call E m inputs params
  | VPreprocessor p => Preprocessor_call E p inputs params
  | _ => raise (TypeError "object is not callable")
  end.

Definition is_not_None (v : value) : bool :=
  match v with VNone => false | _ => true end.

(** *** Defaults of the base class *)

Definition _sanitize_parameters (self : pipeline) (pipeline_parameters : pydict)
  : M U (pydict * pydict * pydict) :=
  ret (∅, ∅, pipeline_parameters).

Definition preprocess (self : pipeline) (inputs : value)
    (preprocess_params : pydict) : M U value :=
  do _ <- py_assert (is_not_None (preprocessor self))
            "preprocess method should be implemented" ;
  do _ <- py_assert (negb (isinstance_list (preprocessor self)))
            "default implementation does not support using multiple preprocessors." ;
  py_call (preprocessor self) inputs preprocess_params.

Definition forward (self : pipeline) (inputs : value) (forward_params : pydict)
  : M U value :=
  do m <- getattr "model" (model self) ;
  do _ <- py_assert (is_not_None m) "forward method should be implemented" ;
  do _ <- py_assert (negb (has_multiple_models self))
            "default implementation does not support multiple models in a pipeline." ;
  py_call m inputs forward_params.

Definition postprocess (self : pipeline) (inputs : value)
    (postprocess_params : pydict) : M U pydict :=
  raise (NotImplementedError "postprocess").

(** *** Output validation *)

(** [k not in input] *)
Definition not_in (k : string) (input : pydict) : bool :=
  match input !! k with
  | Some _ => false
  | None => true
  end.

(** The [for k in output_keys] loop of [_check_output]. *)
Fixpoint missing_keys_loop (output_keys : list string) (input : pydict)
    (missing_keys : list string) : list string :=
  match output_keys with
  | [] => missing_keys
  | k :: rest =>
      missing_keys_loop rest input
        (if not_in k input then missing_keys ++ [k] else missing_keys)
  end.

Context (cls : pipeline_class U).

Definition _check_output (self : pipeline) (input : pydict) : M U unit :=
  let task_name := group_key cls in
  match TASK_OUTPUTS E !! task_name with
  | None => logger_emit (LogWarningOutputKeysMissing task_name)
  | Some output_keys =>
      let missing_keys := missing_keys_loop output_keys input [] in
      if bool_decide (0 < length missing_keys)
      then raise (ValueError (MsgMissingKeys output_keys missing_keys))
      else ret tt
  end.

(** *** Single-item processing *)

Definition _process_single (self : pipeline) (input : value)
    (args : list value) (kwargs : pydict) : M U pydict :=
  do params <- m_sanitize_parameters cls self kwargs ;
  let '(preprocess_params, forward_params, postprocess_params) := params in
  do out <- m_preprocess cls self input preprocess_params ;
  do out <- m_forward cls self out forward_params ;
  do out <- m_postprocess cls self out postprocess_params ;
  do _ <- _check_output self out ;
  ret out.

(** *** [__call__] *)

(** The [for ele in input] loop of the list branch; [output] is the list
    built so far. *)
Fixpoint call_loop (self : pipeline) (input : list value) (args : list value)
    (kwargs : pydict) (output : list pydict) : M U (list pydict) :=
  match input with
  | [] => ret output
  | ele :: rest =>
      do out <- _process_single self ele args kwargs ;
      call_loop self rest args kwargs (output ++ [out])
  end.

(** Calling the generator function [_process_iterator] runs none of its
    body: it returns the generator object. *)
Definition _process_iterator (self : pipeline) (input : list value)
    (args : list value) (kwargs : pydict) : generator :=
  {| gen_rest := Some input; gen_args := args; gen_kwargs := kwargs |}.

Definition __call__ (self : pipeline) (input : value) (args : list value)
    (kwargs : pydict) : M U call_output :=
  match input with
  | VList items =>
      do output <- call_loop self items args kwargs [] ;
      ret (OutList output)
  | VDataset items =>
      ret (OutGenerator (_process_iterator self items args kwargs))
  | _ =>
      do output <- _process_single self input args kwargs ;
      ret (OutSingle output)
  end.

(** A generator whose loop has no item left to reach. *)
Definition exhausted (g : generator) : Prop :=
  gen_rest g = None ∨ gen_rest g = Some [].

Definition finished (g : generator) : generator :=
  {| gen_rest := None; gen_args := gen_args g; gen_kwargs := gen_kwargs g |}.

(** An exception that escapes the body of a generator reaches the caller of
    [next] as it is, except [StopIteration]: the interpreter replaces it by
    [RuntimeError('generator raised StopIteration')], so that it is not
    taken for the end of the iteration. *)
Definition generator_raise (e : exn) : exn :=
  match e with
  | StopIteration => RuntimeError "generator raised StopIteration"
  | _ => e
  end.

(** What the caller of [next] sees of the outcome of the loop body. *)
Definition next_outcome {A : Type} (r : result A) : result A :=
  match r with
  | Ok a => Ok a
  | Raise e => Raise (generator_raise e)
  end.

(** [next(g)] on the generator that [_process_iterator] returned for
    [self]: run the body up to the next [yield].  The outcome is the yielded
    value, [StopIteration] when the loop is over, or the exception that
    escaped the body (see [generator_raise]); in the last two cases the
    generator is finished for good. *)
Definition gen_next (self : pipeline) (g : generator) (w : world U)
  : result pydict * generator * world U :=
  match gen_rest g with
  | None => (Raise StopIteration, g, w)
  | Some [] => (Raise StopIteration, finished g, w)
  | Some (ele :: rest) =>
      match _process_single self ele (gen_args g) (gen_kwargs g) w with
      | (Ok out, w') =>
          (Ok out,
           {| gen_rest := Some rest; gen_args := gen_args g;
              gen_kwargs := gen_kwargs g |}, w')
      | (Raise e, w') => (Raise (generator_raise e), finished g, w')
      end
  end.

End Pipeline.

(** ** Sequential runs, used to state the batch and dataset properties *)

Section Runs.

Context {U : Type} (E : externals U) (cls : pipeline_class U).
Context (self : pipeline) (args : list value) (kwargs : pydict).

(** The world left by single-item processing of [items], one after the
    other, whatever each of them returns or raises. *)
Fixpoint run_items (items : list value) (w : world U) : world U :=
  match items with
  | [] => w
  | ele :: rest => run_items rest (_process_single E cls self ele args kwargs w).2
  end.

(** Every item up to, not including, position [k] is processed without
    error when its turn comes. *)
Definition all_ok_before (items : list value) (w : world U) (k : nat) : Prop :=
  ∀ j x, j < k → items !! j = Some x →
    is_ok (_process_single E cls self x args kwargs
             (run_items (take j items) w)).1 = true.

(** [k] calls of [next], outcomes dropped. *)
Fixpoint gen_advance (k : nat) (g : generator) (w : world U)
  : generator * world U :=
  match k with
  | 0 => (g, w)
  | S k' =>
      let r := gen_next E cls self g w in
      gen_advance k' r.1.2 r.2
  end.

(** The outcome of the [(k+1)]-th call of [next] and the world it leaves. *)
Definition pull (k : nat) (g : generator) (w : world U)
  : result pydict * world U :=
  let gw := gen_advance k g w in
  let r := gen_next E cls self gw.1 gw.2 in
  (r.1.1, r.2).

End Runs.

(** ** Two environments to run the code in *)

(** A hub that knows no model: no string is a hub path, nothing exists on
    disk, no task has registered output keys.  Models echo a text input and
    refuse any other. *)
Definition E_offline : externals unit := {|
  is_official_hub_path := fun _ => ret false;
  osp_exists := fun _ => ret false;
  snapshot_download := fun s => ret s;
  is_model := fun _ => ret false;
  Model_from_pretrained := fun _ => ret 0;
  Config_from_file := fun _ => ret ∅;
  Model_call := fun _ inputs _ =>
                  match inputs with
                  | VStr _ => ret inputs
                  | _ => raise (ExternalError "RuntimeError" "text expected")
                  end;
  Preprocessor_call := fun _ inputs _ => ret inputs;
  TASK_OUTPUTS := ∅;
|}.

(** A hub whose path check accepts every string and that downloads each
    snapshot to a cache directory; the snapshots hold no model
    configuration.  The task [demo] has the required keys [a] and [b]. *)
Definition E_hub : externals unit := {|
  is_official_hub_path := fun _ => ret true;
  osp_exists := fun _ => ret false;
  snapshot_download := fun s => ret ("/cache/" ++ s)%string;
  is_model := fun _ => ret false;
  Model_from_pretrained := fun _ => ret 0;
  Config_from_file := fun _ => ret ∅;
  Model_call := fun _ inputs _ => ret inputs;
  Preprocessor_call := fun _ inputs _ => ret inputs;
  TASK_OUTPUTS := {[ "demo" := ["a"; "b"] ]};
|}.

Definition w0 : world unit := {| logs := []; ext := tt |}.

(** A concrete pipeline class for the task [demo]: the defaults of the base
    class, and a [postprocess] that stores the model output under the key
    [a] next to its keyword parameters. *)
Definition demo_class (E : externals unit) : pipeline_class unit := {|
  group_key := "demo";
  m_sanitize_parameters := _sanitize_parameters;
  m_preprocess := preprocess E;
  m_forward := forward E;
  m_postprocess := fun _ inputs postprocess_params =>
                     ret (<["a" := inputs]> postprocess_params);
|}.

(** The pipeline that [__init__(model=VModel 7, preprocessor=VPreprocessor 1)]
    builds. *)
Definition demo_pipeline : pipeline :=
  {| cfg := None; model := Some (VModel 7); models := [VModel 7];
     has_multiple_models := false; preprocessor := VPreprocessor 1 |}.

(** ** Sequential resolution, and the base class as a pipeline class *)

(** The world left by resolving [input_models] one after the other,
    whatever each resolution returns or raises. *)
Fixpoint run_models {U : Type} (E : externals U) (input_models : list value)
    (w : world U) : world U :=
  match input_models with
  | [] => w
  | model :: rest => run_models E rest (initiate_single_model E model w).2
  end.

(** Every entry up to, not including, position [k] is resolved without
    error when its turn comes. *)
Definition all_resolved_before {U : Type} (E : externals U)
    (input_models : list value) (w : world U) (k : nat) : Prop :=
  ∀ j x, j < k → input_models !! j = Some x →
    is_ok (initiate_single_model E x (run_models E (take j input_models) w)).1
    = true.

(** What [initiate_single_model] may return: a model instance, a string, or
    a falsy value. *)
Definition resolved (v : value) : Prop :=
  isinstance_Model v = true ∨ isinstance_str v = true ∨ truthy v = false.

(** A concrete class for the task [task] whose own [postprocess] is
    [return super().postprocess(inputs, **postprocess_params)]: the class
    can be instantiated, and the body that runs is the one of the base
    class.  The other slots hold the defaults. *)
Definition delegating_class {U : Type} (E : externals U) (task : string)
  : pipeline_class U := {|
  group_key := task;
  m_sanitize_parameters := _sanitize_parameters;
  m_preprocess := preprocess E;
  m_forward := forward E;
  m_postprocess := fun self inputs postprocess_params =>
                     postprocess self inputs postprocess_params;
|}.

(** The [demo] class with a [preprocess] of its own that runs out of an
    iterator: it raises [StopIteration] on every input. *)
Definition draining_class (E : externals unit) : pipeline_class unit := {|
  group_key := "demo";
  m_sanitize_parameters := _sanitize_parameters;
  m_preprocess := fun _ _ _ => raise StopIteration;
  m_forward := forward E;
  m_postprocess := fun _ inputs postprocess_params =>
                     ret (<["a" := inputs]> postprocess_params);
|}.

(** A machine without network that holds every snapshot: each string is a
    hub path that exists on disk and holds a model; a download would fail,
    and so does reading a configuration file.  The task [demo] has the
    required key [a]. *)
Definition E_local : externals unit := {|
  is_official_hub_path := fun _ => ret true;
  osp_exists := fun _ => ret true;
  snapshot_download := fun _ => raise (ExternalError "ConnectionError" "offline");
  is_model := fun _ => ret true;
  Model_from_pretrained := fun s => ret (String.length s);
  Config_from_file := fun _ => raise (ExternalError "FileNotFoundError" "config");
  Model_call := fun _ inputs _ => ret inputs;
  Preprocessor_call := fun _ inputs _ => ret inputs;
  TASK_OUTPUTS := {[ "demo" := ["a"] ]};
|}.

(** * Properties *)

(** Unfolds the monad so that a computation becomes a term over worlds. *)
Ltac run_monad :=
  unfold bind, ret, raise, logger_emit, py_assert, getattr in *; simpl in *.

(** ** Model resolution *)

Section ResolverFacts.

Context {U : Type} (E : externals U).

Implicit Types (model : value) (w : world U).

(** On anything but a string the hub check is not consulted: the log record
    is written and the [elif] / [else] branches decide. *)
Lemma initiate_single_model_not_str model w :
  isinstance_str model = false →
  initiate_single_model E model w
  = initiate_other model (with_log (LogInfoInitiateModel model) w).
Proof.
  intros Hstr. unfold initiate_single_model.
  destruct model; try discriminate Hstr; reflexivity.
Qed.

(** The same branches decide when the hub check answers no. *)
Lemma initiate_single_model_no_hub model w w1 :
  is_hub_str E model (with_log (LogInfoInitiateModel model) w) = (Ok false, w1) →
  initiate_single_model E model w = initiate_other model w1.
Proof.
  intros Hhub. unfold initiate_single_model. run_monad.
  by rewrite Hhub.
Qed.

Lemma initiate_other_Model model w :
  isinstance_Model model = true → initiate_other model w = (Ok model, w).
Proof. intros H. unfold initiate_other. by rewrite H. Qed.

Lemma initiate_other_falsy model w :
  truthy model = false → initiate_other model w = (Ok model, w).
Proof.
  intros H. unfold initiate_other. rewrite H. simpl.
  by destruct (isinstance_Model model).
Qed.

Lemma initiate_other_invalid model w :
  truthy model = true → isinstance_str model = false →
  isinstance_Model model = false →
  initiate_other model w
  = (Raise (ValueError (MsgModelType (type_of model))), w).
Proof.
  intros Ht Hs Hm. unfold initiate_other. by rewrite Hm, Ht, Hs.
Qed.

(** A string passes the [else] branch unchanged, empty or not. *)
Lemma initiate_other_str s w :
  initiate_other (VStr s) w = (Ok (VStr s), w).
Proof.
  unfold initiate_other. simpl. by rewrite andb_false_r.
Qed.

(** C10, amended.  Single-model resolution returns the very same value
    unchanged on arguments that are model instances and on falsy or absent
    arguments, provided the argument is not a string that
    [is_official_hub_path] accepts (for every argument that is not a string
    the check is not even made and answers no).  The only effects are the
    log record and those of the hub check. *)
Theorem initiate_single_model_identity model w :
  isinstance_Model model = true ∨ truthy model = false →
  (is_hub_str E model (with_log (LogInfoInitiateModel model) w)).1 = Ok false →
  initiate_single_model E model w
  = (Ok model, (is_hub_str E model (with_log (LogInfoInitiateModel model) w)).2).
Proof.
  intros Hcase Hhub.
  destruct (is_hub_str E model (with_log (LogInfoInitiateModel model) w))
    as [r w1] eqn:Hcheck.
  simpl in Hhub. subst r. simpl.
  rewrite (initiate_single_model_no_hub _ _ _ Hcheck).
  destruct Hcase as [Hm | Hf].
  - by apply initiate_other_Model.
  - by apply initiate_other_falsy.
Qed.

(** Model instances and falsy values that are not strings meet the side
    condition of [initiate_single_model_identity] in every environment. *)
Lemma is_hub_str_not_str model w :
  isinstance_str model = false → is_hub_str E model w = (Ok false, w).
Proof. intros H. destruct model; try discriminate H; reflexivity. Qed.

(** C6, amended.  Every truthy argument that is neither a string nor a model
    instance makes single-model resolution fail with the invalid-type
    [ValueError], which names the type of the argument; supplied as the
    (non-list) model argument of the constructor it makes construction
    fail with that error. *)
Theorem initiate_single_model_invalid_type model w :
  truthy model = true →
  isinstance_str model = false →
  isinstance_Model model = false →
  initiate_single_model E model w
  = (Raise (ValueError (MsgModelType (type_of model))),
     with_log (LogInfoInitiateModel model) w)
  ∧ (isinstance_list model = false →
     ∀ preprocessor,
       __init__ E None model preprocessor w
       = (Raise (ValueError (MsgModelType (type_of model))),
          with_log (LogInfoInitiateModel model) w)).
Proof.
  intros Ht Hs Hm.
  assert (Hsingle : initiate_single_model E model w
    = (Raise (ValueError (MsgModelType (type_of model))),
       with_log (LogInfoInitiateModel model) w)).
  { rewrite initiate_single_model_not_str by done.
    by apply initiate_other_invalid. }
  split; [done |].
  intros Hl preprocessor. unfold __init__. run_monad.
  destruct model; try discriminate Hl; by rewrite Hsingle.
Qed.

End ResolverFacts.

(** C6 as stated fails: a non-empty string that is not a recognised hub
    path is neither a recognised identifier string nor a model instance,
    and resolution returns it unchanged instead of failing. *)
Lemma initiate_single_model_unrecognised_str_passes :
  ¬ (∀ (U : Type) (E : externals U) (model : value) (w : world U),
       truthy model = true →
       isinstance_Model model = false →
       (is_hub_str E model (with_log (LogInfoInitiateModel model) w)).1 ≠ Ok true →
       ∃ msg, (initiate_single_model E model w).1 = Raise (ValueError msg)).
Proof.
  intros H.
  destruct (H unit E_offline (VStr "damo/unknown") w0) as [msg Hmsg];
    [reflexivity | reflexivity | discriminate |].
  vm_compute in Hmsg. discriminate Hmsg.
Qed.

Lemma initiate_single_model_invalid_type_witness :
  initiate_single_model E_offline (VInt 3) w0
  = (Raise (ValueError (MsgModelType TInt)),
     with_log (LogInfoInitiateModel (VInt 3)) w0)
  ∧ __init__ E_offline None (VInt 3) VNone w0
    = (Raise (ValueError (MsgModelType TInt)),
       with_log (LogInfoInitiateModel (VInt 3)) w0).
Proof.
  destruct (initiate_single_model_invalid_type E_offline (VInt 3) w0
              eq_refl eq_refl eq_refl) as [Hsingle Hinit].
  split; [exact Hsingle | exact (Hinit eq_refl VNone)].
Defined.

(** C10 as stated fails: the empty string is falsy, and where the hub check
    accepts it the hub branch replaces it by the downloaded path. *)
Lemma initiate_single_model_empty_str_resolved :
  ¬ (∀ (U : Type) (E : externals U) (model : value) (w : world U),
       isinstance_Model model = true ∨ truthy model = false →
       (initiate_single_model E model w).1 = Ok model).
Proof.
  intros H.
  specialize (H unit E_hub (VStr "") w0 (or_intror eq_refl)).
  vm_compute in H. discriminate H.
Qed.

Lemma initiate_single_model_identity_witness :
  initiate_single_model E_hub (VModel 7) w0
  = (Ok (VModel 7), with_log (LogInfoInitiateModel (VModel 7)) w0)
  ∧ initiate_single_model E_hub VNone w0
    = (Ok VNone, with_log (LogInfoInitiateModel VNone) w0)
  ∧ initiate_single_model E_offline (VStr "") w0
    = (Ok (VStr ""), with_log (LogInfoInitiateModel (VStr "")) w0).
Proof.
  split; [| split].
  - exact (initiate_single_model_identity E_hub (VModel 7) w0
             (or_introl eq_refl) eq_refl).
  - exact (initiate_single_model_identity E_hub VNone w0
             (or_intror eq_refl) eq_refl).
  - exact (initiate_single_model_identity E_offline (VStr "") w0
             (or_intror eq_refl) eq_refl).
Defined.

(** ** Construction *)

Section InitFacts.

Context {U : Type} (E : externals U).

Implicit Types (arg pre : value) (w : world U) (p : pipeline).

(** What a successful construction from a bare (non-list) model argument
    has done. *)
Lemma init_bare_inv config_file arg pre w p w' :
  isinstance_list arg = false →
  __init__ E config_file arg pre w = (Ok p, w') →
  ∃ c m w1,
    initiate_single_model E arg w1 = (Ok m, w')
    ∧ p = {| cfg := c; model := Some m; models := [m];
             has_multiple_models := false; preprocessor := pre |}.
Proof.
  intros Hl Hinit. unfold __init__ in Hinit. run_monad.
  destruct config_file as [f |].
  - destruct (Config_from_file E f w) as [[c | e] w1]; [| discriminate Hinit].
    exists (Some c).
    destruct arg; try discriminate Hl;
      match type of Hinit with
      | context [initiate_single_model E ?a w1] =>
          destruct (initiate_single_model E a w1) as [[r | e] w2] eqn:Hm;
            [| discriminate Hinit]
      end;
      exists r, w1; injection Hinit as <- <-; by rewrite Hm.
  - exists None.
    destruct arg; try discriminate Hl;
      match type of Hinit with
      | context [initiate_single_model E ?a w] =>
          destruct (initiate_single_model E a w) as [[r | e] w2] eqn:Hm;
            [| discriminate Hinit]
      end;
      exists r, w; injection Hinit as <- <-; by rewrite Hm.
Qed.

(** What a successful construction from a list of models has done: the
    attribute [model] is never assigned. *)
Lemma init_list_inv config_file items pre w p w' :
  __init__ E config_file (VList items) pre w = (Ok p, w') →
  ∃ c ms w1,
    initiate_multiple_models E items w1 = (Ok ms, w')
    ∧ p = {| cfg := c; model := None; models := ms;
             has_multiple_models := bool_decide (1 < length ms);
             preprocessor := pre |}.
Proof.
  intros Hinit. unfold __init__ in Hinit. run_monad.
  destruct config_file as [f |].
  - destruct (Config_from_file E f w) as [[c | e] w1]; [| discriminate Hinit].
    destruct (initiate_multiple_models E items w1) as [[ms | e] w2] eqn:Hms;
      [| discriminate Hinit].
    exists (Some c), ms, w1. injection Hinit as <- <-. by rewrite Hms.
  - destruct (initiate_multiple_models E items w) as [[ms | e] w2] eqn:Hms;
      [| discriminate Hinit].
    exists None, ms, w. injection Hinit as <- <-. by rewrite Hms.
Qed.

(** The multi-model flag is set iff more than one model was resolved. *)
Lemma init_has_multiple_models config_file arg pre w p w' :
  __init__ E config_file arg pre w = (Ok p, w') →
  has_multiple_models p = true ↔ 1 < length (models p).
Proof.
  intros Hinit.
  destruct (isinstance_list arg) eqn:Hl.
  - destruct arg; try discriminate Hl.
    destruct (init_list_inv _ _ _ _ _ _ Hinit) as (c & ms & w1 & _ & ->).
    simpl. by rewrite bool_decide_eq_true.
  - destruct (init_bare_inv _ _ _ _ _ _ Hl Hinit) as (c & m & w1 & _ & ->).
    simpl. split; [discriminate | lia].
Qed.

(** C7, amended.  Constructing a pipeline with no model argument (the
    default [None]) leaves the resolved model list as the one-element list
    that holds [None]: the list is not empty, but it holds no model; a model
    instance is in the resolved list only if a model was supplied. *)
Theorem init_no_model_models pre w :
  __init__ E None VNone pre w
  = (Ok {| cfg := None; model := Some VNone; models := [VNone];
           has_multiple_models := false; preprocessor := pre |},
     with_log (LogInfoInitiateModel VNone) w)
  ∧ (∀ config_file p w',
       __init__ E config_file VNone pre w = (Ok p, w') → models p = [VNone])
  ∧ (∀ config_file arg p w' m,
       __init__ E config_file arg pre w = (Ok p, w') →
       VModel m ∈ models p → arg ≠ VNone).
Proof.
  assert (Hnone : ∀ config_file p w',
    __init__ E config_file VNone pre w = (Ok p, w') → models p = [VNone]).
  { intros config_file p w' Hinit.
    destruct (init_bare_inv config_file VNone pre w p w' eq_refl Hinit)
      as (c & m & w1 & Hm & ->). simpl.
    rewrite initiate_single_model_not_str in Hm by done.
    rewrite initiate_other_falsy in Hm by done. by injection Hm as <- _. }
  split; [reflexivity |]. split; [exact Hnone |].
  intros config_file arg p w' m Hinit Hin ->.
  rewrite (Hnone _ _ _ Hinit) in Hin.
  apply list_elem_of_singleton in Hin. discriminate Hin.
Qed.

(** C8, amended.  After every construction from a bare (non-list) model
    argument the convenience single-model reference is present and equals
    the first and only element of the resolved model list, and the
    multi-model flag is off. *)
Theorem init_bare_model_reference config_file arg pre w p w' :
  isinstance_list arg = false →
  __init__ E config_file arg pre w = (Ok p, w') →
  ∃ m, model p = Some m
       ∧ models p = [m]
       ∧ models p !! 0 = Some m
       ∧ has_multiple_models p = false.
Proof.
  intros Hl Hinit.
  destruct (init_bare_inv _ _ _ _ _ _ Hl Hinit) as (c & m & w1 & _ & ->).
  by exists m.
Qed.

(** *** The default [forward] *)

Lemma forward_no_model_attribute p inputs forward_params w :
  model p = None →
  forward E p inputs forward_params w = (Raise (AttributeError "model"), w).
Proof. intros H. unfold forward. by rewrite H. Qed.

Lemma forward_model_None p inputs forward_params w :
  model p = Some VNone →
  forward E p inputs forward_params w
  = (Raise (AssertionError "forward method should be implemented"), w).
Proof. intros H. unfold forward. by rewrite H. Qed.

Lemma forward_multiple_models p m inputs forward_params w :
  model p = Some m → is_not_None m = true → has_multiple_models p = true →
  forward E p inputs forward_params w
  = (Raise (AssertionError
       "default implementation does not support multiple models in a pipeline."),
     w).
Proof.
  intros Hm Hn Hmulti. unfold forward. rewrite Hm, Hmulti. run_monad.
  by rewrite Hn.
Qed.

Lemma forward_single_model p m inputs forward_params w :
  model p = Some m → is_not_None m = true → has_multiple_models p = false →
  forward E p inputs forward_params w = py_call E m inputs forward_params w.
Proof.
  intros Hm Hn Hmulti. unfold forward. rewrite Hm, Hmulti. run_monad.
  by rewrite Hn.
Qed.

(** C5, at the inputs where the code departs from it.  On a pipeline built
    from a list of models, of whatever length, the default [forward] raises
    [AttributeError] for the attribute [model]: neither assertion is
    reached and no model is invoked. *)
Theorem forward_after_list_init config_file items pre w p w' inputs forward_params w2 :
  __init__ E config_file (VList items) pre w = (Ok p, w') →
  forward E p inputs forward_params w2 = (Raise (AttributeError "model"), w2).
Proof.
  intros Hinit.
  destruct (init_list_inv _ _ _ _ _ _ Hinit) as (c & ms & w1 & _ & ->).
  by apply forward_no_model_attribute.
Qed.

End InitFacts.

(** C7 as stated fails: without a model argument the resolved model list is
    [[None]], not the empty list. *)
Lemma init_no_model_models_not_empty :
  ¬ (∀ (U : Type) (E : externals U) (pre : value) (w w' : world U) (p : pipeline),
       __init__ E None VNone pre w = (Ok p, w') → models p = []).
Proof.
  intros H.
  specialize (H unit E_offline VNone w0 _ _ eq_refl).
  discriminate H.
Qed.

Lemma init_no_model_models_witness :
  models (Pipeline None (Some VNone) [VNone] false VNone) = [VNone].
Proof.
  exact (proj1 (proj2 (init_no_model_models E_offline VNone w0))
           None _ _ eq_refl).
Defined.

(** C8 as stated fails: built from a one-element list, the pipeline holds
    one resolved model and no single-model reference at all. *)
Lemma init_one_element_list_no_reference :
  ¬ (∀ (U : Type) (E : externals U) config_file (arg pre : value)
       (w w' : world U) (p : pipeline),
       __init__ E config_file arg pre w = (Ok p, w') →
       length (models p) ≤ 1 →
       ∃ m, model p = Some m ∧ models p !! 0 = Some m).
Proof.
  intros H.
  destruct (H unit E_offline None (VList [VModel 7]) VNone w0 _ _ eq_refl)
    as (m & Hm & _); [simpl; lia |].
  discriminate Hm.
Qed.

Lemma init_bare_model_reference_witness :
  ∃ m, model (Pipeline None (Some (VModel 7)) [VModel 7] false VNone) = Some m
       ∧ models (Pipeline None (Some (VModel 7)) [VModel 7] false VNone) = [m]
       ∧ models (Pipeline None (Some (VModel 7)) [VModel 7] false VNone) !! 0
         = Some m
       ∧ has_multiple_models
           (Pipeline None (Some (VModel 7)) [VModel 7] false VNone) = false.
Proof.
  exact (init_bare_model_reference E_offline None (VModel 7) VNone w0 _ _
           eq_refl eq_refl).
Defined.

Lemma forward_after_list_init_witness :
  forward E_offline (Pipeline None None [VModel 7] false VNone)
    (VStr "x") ∅ w0
  = (Raise (AttributeError "model"), w0)
  ∧ forward E_offline (Pipeline None None [VModel 1; VModel 2] true VNone)
      (VStr "x") ∅ w0
    = (Raise (AttributeError "model"), w0).
Proof.
  split.
  - exact (forward_after_list_init E_offline None [VModel 7] VNone w0 _ _
             (VStr "x") ∅ w0 eq_refl).
  - exact (forward_after_list_init E_offline None [VModel 1; VModel 2] VNone
             w0 _ _ (VStr "x") ∅ w0 eq_refl).
Defined.

(** ** Output validation *)

Section CheckOutputFacts.

Context {U : Type} (E : externals U) (cls : pipeline_class U).

Implicit Types (input : pydict) (w : world U).

Lemma not_in_spec k input : not_in k input = true ↔ input !! k = None.
Proof. unfold not_in. destruct (input !! k); split; congruence. Qed.

(** The loop keeps, in order, the expected keys that the output lacks. *)
Lemma missing_keys_loop_filter output_keys input missing_keys :
  missing_keys_loop output_keys input missing_keys
  = missing_keys ++ filter (λ k, not_in k input = true) output_keys.
Proof.
  revert missing_keys.
  induction output_keys as [| k rest IH]; intros missing_keys; simpl.
  - by rewrite app_nil_r.
  - rewrite IH, filter_cons.
    destruct (not_in k input); case_decide; try congruence.
    by rewrite <- app_assoc.
Qed.

Lemma elem_of_missing_keys output_keys input k :
  k ∈ missing_keys_loop output_keys input []
  ↔ k ∈ output_keys ∧ input !! k = None.
Proof.
  rewrite missing_keys_loop_filter. simpl.
  rewrite list_elem_of_filter, not_in_spec. tauto.
Qed.

(** [_check_output] in closed form. *)
Lemma check_output_eval (self : pipeline) input w :
  _check_output E cls self input w
  = match TASK_OUTPUTS E !! group_key cls with
    | None => (Ok tt, with_log (LogWarningOutputKeysMissing (group_key cls)) w)
    | Some output_keys =>
        match filter (λ k, not_in k input = true) output_keys with
        | [] => (Ok tt, w)
        | missing_keys =>
            (Raise (ValueError (MsgMissingKeys output_keys missing_keys)), w)
        end
    end.
Proof.
  unfold _check_output.
  destruct (TASK_OUTPUTS E !! group_key cls) as [output_keys |]; [| done].
  rewrite missing_keys_loop_filter. simpl.
  by destruct (filter _ output_keys).
Qed.

(** C3.  Output validation raises iff the task of the pipeline is in
    [TASK_OUTPUTS] and the output lacks one of the task's keys; the error is
    then the [ValueError] that lists the task's keys and exactly the
    absent ones, in the order of the registry, and the world is untouched.
    For a task that is not in [TASK_OUTPUTS] validation returns, whatever
    the output holds, and has logged a warning. *)
Theorem check_output_spec (self : pipeline) input w :
  ((∃ e w', _check_output E cls self input w = (Raise e, w'))
   ↔ (∃ output_keys k,
        TASK_OUTPUTS E !! group_key cls = Some output_keys
        ∧ k ∈ output_keys ∧ input !! k = None))
  ∧ (∀ e w',
       _check_output E cls self input w = (Raise e, w') →
       w' = w
       ∧ ∃ output_keys missing_keys,
           TASK_OUTPUTS E !! group_key cls = Some output_keys
           ∧ e = ValueError (MsgMissingKeys output_keys missing_keys)
           ∧ missing_keys = filter (λ k, not_in k input = true) output_keys
           ∧ ∀ k, k ∈ missing_keys ↔ k ∈ output_keys ∧ input !! k = None)
  ∧ (TASK_OUTPUTS E !! group_key cls = None →
     _check_output E cls self input w
     = (Ok tt, with_log (LogWarningOutputKeysMissing (group_key cls)) w)).
Proof.
  rewrite check_output_eval.
  destruct (TASK_OUTPUTS E !! group_key cls) as [output_keys |] eqn:Hreg.
  - assert (Hmem : ∀ k, k ∈ filter (λ k, not_in k input = true) output_keys
                        ↔ k ∈ output_keys ∧ input !! k = None).
    { intros k. rewrite list_elem_of_filter, not_in_spec. tauto. }
    destruct (filter (λ k, not_in k input = true) output_keys)
      as [| k0 ks] eqn:Hmissing.
    + split; [split |].
      * intros (e & w' & H). discriminate H.
      * intros (keys & k & Hkeys & Hk & Hnone). injection Hkeys as <-.
        exfalso. eapply not_elem_of_nil. apply Hmem. eauto.
      * split; [intros e w' H; discriminate H | discriminate].
    + split; [split |].
      * intros _. exists output_keys, k0. split; [done |].
        apply Hmem. left.
      * intros _. eauto.
      * split; [| discriminate].
        intros e w' H. injection H as <- <-. split; [done |].
        exists output_keys, (k0 :: ks). done.
  - split; [split |].
    + intros (e & w' & H). discriminate H.
    + intros (keys & k & Hkeys & _). discriminate Hkeys.
    + split; [intros e w' H; discriminate H | done].
Qed.

End CheckOutputFacts.

Lemma check_output_spec_witness :
  _check_output E_offline (demo_class E_offline) demo_pipeline ∅ w0
  = (Ok tt, with_log (LogWarningOutputKeysMissing "demo") w0).
Proof.
  exact (proj2 (proj2 (check_output_spec E_offline (demo_class E_offline)
                         demo_pipeline ∅ w0)) eq_refl).
Defined.

(** With the keys [a] and [b] registered, an output that holds [a] only is
    refused, and the error names [b] alone. *)
Example check_output_demo_missing_b :
  _check_output E_hub (demo_class E_hub) demo_pipeline {[ "a" := VInt 1 ]} w0
  = (Raise (ValueError (MsgMissingKeys ["a"; "b"] ["b"])), w0).
Proof. vm_compute. reflexivity. Qed.

(** ** Single items, batches and datasets *)

Section CallFacts.

Context {U : Type} (E : externals U) (cls : pipeline_class U).
Context (self : pipeline) (args : list value) (kwargs : pydict).

Implicit Types (input ele : value) (items : list value) (w : world U).

Local Abbreviation process := (_process_single E cls self).
Local Abbreviation after := (run_items E cls self args kwargs).
Local Abbreviation ok_before := (all_ok_before E cls self args kwargs).

(** Single-item processing returns [out] exactly when the sanitizer splits
    the keyword parameters, the three stages succeed one on the result of
    the other, each with its own subset, and validation accepts [out]. *)
Lemma process_single_Ok input w out w5 :
  process input args kwargs w = (Ok out, w5)
  ↔ ∃ pp fp qp a b w1 w2 w3 w4,
      m_sanitize_parameters cls self kwargs w = (Ok (pp, fp, qp), w1)
      ∧ m_preprocess cls self input pp w1 = (Ok a, w2)
      ∧ m_forward cls self a fp w2 = (Ok b, w3)
      ∧ m_postprocess cls self b qp w3 = (Ok out, w4)
      ∧ _check_output E cls self out w4 = (Ok tt, w5).
Proof.
  unfold _process_single. run_monad. split.
  - intros H.
    destruct (m_sanitize_parameters cls self kwargs w)
      as [[[[pp fp] qp] | e] w1]; [| discriminate H].
    destruct (m_preprocess cls self input pp w1) as [[a | e] w2] eqn:Hpre;
      [| discriminate H].
    destruct (m_forward cls self a fp w2) as [[b | e] w3] eqn:Hfwd;
      [| discriminate H].
    destruct (m_postprocess cls self b qp w3) as [[o | e] w4] eqn:Hpost;
      [| discriminate H].
    destruct (_check_output E cls self o w4) as [[[] | e] w5'] eqn:Hchk;
      [| discriminate H].
    injection H as <- <-.
    exists pp, fp, qp, a, b, w1, w2, w3, w4. by rewrite Hchk.
  - intros (pp & fp & qp & a & b & w1 & w2 & w3 & w4
            & Hsan & Hpre & Hfwd & Hpost & Hchk).
    by rewrite Hsan, Hpre, Hfwd, Hpost, Hchk.
Qed.

(** C1.  For an input that is neither a list nor a dataset, [__call__]
    returns exactly when single-item processing does, and what it returns is
    the output mapping itself, not a list: the result of [postprocess] on
    the result of [forward] on the result of [preprocess] on the input,
    each stage called with the subset of the keyword parameters that the
    sanitizer gave it, once validation has accepted it. *)
Theorem call_scalar input w r w' :
  isinstance_list input = false →
  isinstance_PyDataset input = false →
  __call__ E cls self input args kwargs w = (Ok r, w')
  ↔ ∃ out pp fp qp a b w1 w2 w3 w4,
      r = OutSingle out
      ∧ m_sanitize_parameters cls self kwargs w = (Ok (pp, fp, qp), w1)
      ∧ m_preprocess cls self input pp w1 = (Ok a, w2)
      ∧ m_forward cls self a fp w2 = (Ok b, w3)
      ∧ m_postprocess cls self b qp w3 = (Ok out, w4)
      ∧ _check_output E cls self out w4 = (Ok tt, w').
Proof.
  intros Hl Hd.
  assert (Hcall : __call__ E cls self input args kwargs w
    = match process input args kwargs w with
      | (Ok out, w1) => (Ok (OutSingle out), w1)
      | (Raise e, w1) => (Raise e, w1)
      end).
  { destruct input; try discriminate Hl; try discriminate Hd; reflexivity. }
  rewrite Hcall. split.
  - intros H.
    destruct (process input args kwargs w) as [[out | e] w1] eqn:Hp;
      [| discriminate H].
    injection H as <- <-.
    apply process_single_Ok in Hp.
    destruct Hp as (pp & fp & qp & a & b & w1' & w2 & w3 & w4 & Hp).
    exists out, pp, fp, qp, a, b, w1', w2, w3, w4. done.
  - intros (out & pp & fp & qp & a & b & w1 & w2 & w3 & w4 & -> & Hp).
    assert (Hs : process input args kwargs w = (Ok out, w')).
    { apply process_single_Ok. exists pp, fp, qp, a, b, w1, w2, w3, w4. done. }
    by rewrite Hs.
Qed.

(** *** The list branch *)

Lemma run_items_app items1 items2 w :
  after (items1 ++ items2) w = after items2 (after items1 w).
Proof.
  revert w. induction items1 as [| ele rest IH]; intros w; simpl; [done |].
  apply IH.
Qed.

Lemma run_items_take_S items k ele w :
  items !! k = Some ele →
  after (take (S k) items) w
  = (process ele args kwargs (after (take k items) w)).2.
Proof.
  intros Hk. rewrite (take_S_r _ _ _ Hk), run_items_app. reflexivity.
Qed.

Lemma all_ok_before_tail ele rest w k :
  ok_before (ele :: rest) w (S k) →
  ok_before rest (process ele args kwargs w).2 k.
Proof.
  intros H j x Hj Hx. exact (H (S j) x ltac:(lia) Hx).
Qed.

(** The loop appends one output per item, in order, each computed in the
    world that the items before it have left. *)
Lemma call_loop_Ok items output w outs w' :
  call_loop E cls self items args kwargs output w = (Ok outs, w') →
  ∃ new,
    outs = output ++ new
    ∧ length new = length items
    ∧ w' = after items w
    ∧ ∀ i ele, items !! i = Some ele →
        ∃ out, new !! i = Some out
               ∧ (process ele args kwargs (after (take i items) w)).1 = Ok out.
Proof.
  revert output w.
  induction items as [| ele rest IH]; intros output w H; simpl in H.
  - run_monad. injection H as <- <-. exists [].
    rewrite app_nil_r. repeat split; done.
  - unfold bind in H.
    destruct (process ele args kwargs w) as [[out | e] w1] eqn:Hp;
      [| discriminate H].
    destruct (IH _ _ H) as (new & -> & Hlen & -> & Hnth).
    exists (out :: new). rewrite <- app_assoc. simpl. rewrite Hp. simpl.
    repeat split; [by rewrite Hlen |].
    intros [| i] x Hx; simpl in *.
    + injection Hx as <-. exists out. by rewrite Hp.
    + rewrite Hp. simpl. by apply Hnth.
Qed.

Lemma call_loop_total items output w :
  ok_before items w (length items) →
  ∃ outs, call_loop E cls self items args kwargs output w
          = (Ok outs, after items w).
Proof.
  revert output w.
  induction items as [| ele rest IH]; intros output w Hok; simpl.
  - by exists output.
  - unfold bind.
    pose proof (Hok 0 ele ltac:(simpl; lia) eq_refl) as H0. simpl in H0.
    destruct (process ele args kwargs w) as [[out | e] w1] eqn:Hp;
      [| discriminate H0].
    apply all_ok_before_tail in Hok. rewrite Hp in Hok. simpl in *.
    apply IH, Hok.
Qed.

Lemma call_loop_Raise items output w i ele e :
  items !! i = Some ele →
  ok_before items w i →
  (process ele args kwargs (after (take i items) w)).1 = Raise e →
  call_loop E cls self items args kwargs output w
  = (Raise e, after (take (S i) items) w).
Proof.
  revert items output w.
  induction i as [| i IH]; intros [| x rest] output w Hi Hok He;
    try discriminate Hi; simpl in *.
  - injection Hi as ->. unfold bind.
    destruct (process ele args kwargs w) as [[out | e'] w1]; simpl in *;
      [discriminate He | by injection He as ->].
  - unfold bind.
    pose proof (Hok 0 x ltac:(lia) eq_refl) as H0. simpl in H0.
    apply all_ok_before_tail in Hok.
    destruct (process x args kwargs w) as [[out | e'] w1] eqn:Hp;
      [| discriminate H0].
    simpl in *. by apply IH.
Qed.

(** C2.  For a list input of length N, whenever [__call__] returns it
    returns a list of length N whose i-th element is the single-item result
    for the i-th element of the input, computed in the world that the
    elements before it have left; and it does return such a list whenever
    single-item processing succeeds on every element in its turn. *)
Theorem call_list items w :
  (∀ r w',
     __call__ E cls self (VList items) args kwargs w = (Ok r, w') →
     ∃ outs,
       r = OutList outs
       ∧ length outs = length items
       ∧ w' = after items w
       ∧ ∀ i ele, items !! i = Some ele →
           ∃ out, outs !! i = Some out
                  ∧ (process ele args kwargs (after (take i items) w)).1
                    = Ok out)
  ∧ (ok_before items w (length items) →
     ∃ outs, __call__ E cls self (VList items) args kwargs w
             = (Ok (OutList outs), after items w)).
Proof.
  split.
  - intros r w' H. simpl in H. unfold bind in H.
    destruct (call_loop E cls self items args kwargs [] w)
      as [[outs | e] w1] eqn:Hloop; [| discriminate H].
    injection H as <- <-.
    destruct (call_loop_Ok _ _ _ _ _ Hloop) as (new & -> & Hlen & -> & Hnth).
    exists new. done.
  - intros Hok.
    destruct (call_loop_total items [] w Hok) as (outs & Hloop).
    exists outs. simpl. unfold bind. by rewrite Hloop.
Qed.

(** C9.  If single-item processing fails on an element of a list input,
    the elements before it having been processed, [__call__] raises that
    very exception to its caller: no list is returned, partial or not, and
    the world is the one the failing element left, so that no later element
    has been processed. *)
Theorem call_list_aborts items w i ele e :
  items !! i = Some ele →
  ok_before items w i →
  (process ele args kwargs (after (take i items) w)).1 = Raise e →
  __call__ E cls self (VList items) args kwargs w
  = (Raise e, after (take (S i) items) w).
Proof.
  intros Hi Hok He. simpl. unfold bind.
  by rewrite (call_loop_Raise items [] w i ele e Hi Hok He).
Qed.

(** *** The dataset branch *)

Local Abbreviation iterator items :=
  (_process_iterator self items args kwargs).

(** After [k] successful calls of [next] the generator holds the items from
    position [k] on, and the world is the one the first [k] items left. *)
Lemma gen_advance_ok items k w :
  k ≤ length items →
  ok_before items w k →
  gen_advance E cls self k (iterator items) w
  = ({| gen_rest := Some (drop k items); gen_args := args;
        gen_kwargs := kwargs |},
     after (take k items) w).
Proof.
  revert items w.
  induction k as [| k IH]; intros items w Hlen Hok; [done |].
  destruct items as [| ele rest]; [simpl in Hlen; lia |].
  pose proof (Hok 0 ele ltac:(lia) eq_refl) as H0. simpl in H0.
  apply all_ok_before_tail in Hok.
  simpl. unfold gen_next. simpl.
  destruct (process ele args kwargs w) as [[out | e] w1] eqn:Hp;
    [| discriminate H0].
  simpl in *. apply IH; [lia | done].
Qed.

Lemma pull_nth items k ele w :
  items !! k = Some ele →
  ok_before items w k →
  pull E cls self k (iterator items) w
  = (next_outcome (process ele args kwargs (after (take k items) w)).1,
     after (take (S k) items) w).
Proof.
  intros Hk Hok. unfold pull.
  rewrite gen_advance_ok; [| apply lookup_lt_Some in Hk; lia | done].
  rewrite (run_items_take_S _ _ _ _ Hk).
  unfold gen_next. simpl.
  rewrite (drop_S _ _ _ Hk).
  by destruct (process ele args kwargs (after (take k items) w)) as [[out | e] w1].
Qed.

Lemma gen_next_exhausted g w :
  exhausted g →
  (gen_next E cls self g w).1.1 = Raise StopIteration
  ∧ exhausted (gen_next E cls self g w).1.2
  ∧ (gen_next E cls self g w).2 = w.
Proof.
  unfold exhausted, gen_next.
  intros [H | H]; rewrite H; simpl; repeat split; auto.
Qed.

Lemma gen_advance_exhausted k g w :
  exhausted g →
  exhausted (gen_advance E cls self k g w).1
  ∧ (gen_advance E cls self k g w).2 = w.
Proof.
  revert g. induction k as [| k IH]; intros g Hg; [done |].
  simpl. destruct (gen_next_exhausted g w Hg) as (_ & Hg' & ->).
  by apply IH.
Qed.

Lemma gen_advance_add a b g w :
  gen_advance E cls self (a + b) g w
  = gen_advance E cls self b (gen_advance E cls self a g w).1
      (gen_advance E cls self a g w).2.
Proof.
  revert g w. induction a as [| a IH]; intros g w; [done |].
  simpl. apply IH.
Qed.

(** Once every item has been yielded, each further [next] raises
    [StopIteration] and changes nothing. *)
Lemma pull_end items w n :
  ok_before items w (length items) →
  pull E cls self (length items + n) (iterator items) w
  = (Raise StopIteration, after items w).
Proof.
  intros Hok. unfold pull.
  rewrite gen_advance_add, gen_advance_ok by done.
  rewrite drop_ge, take_ge by done. simpl.
  set (g := {| gen_rest := Some []; gen_args := args; gen_kwargs := kwargs |}).
  assert (Hg : exhausted g) by by right.
  destruct (gen_advance_exhausted n g (after items w) Hg) as (Hg' & ->).
  destruct (gen_next_exhausted _ (after items w) Hg') as (-> & _ & ->).
  done.
Qed.

(** Datasets that agree on their first [k] items are processed alike that
    far. *)
Lemma all_ok_before_prefix items items' k w :
  take k items' = take k items →
  ok_before items w k → ok_before items' w k.
Proof.
  intros Hpre Hok j x Hj Hx.
  assert (Htake : take j items' = take j items).
  { rewrite <- (Nat.min_l j k) by lia.
    by rewrite <- !take_take, Hpre. }
  rewrite Htake. apply Hok; [done |].
  by rewrite <- (lookup_take_lt items k j), <- Hpre, lookup_take_lt.
Qed.

(** C4.  For a dataset input [__call__] returns the generator at once,
    without processing anything: the world is untouched.  The [(k+1)]-th
    [next], the earlier ones having yielded, yields the single-item result
    for the k-th item of the dataset, in dataset order, and leaves the world
    that the items up to the k-th have left; if single-item processing of
    that item raises, [next] raises the same exception ([RuntimeError] in
    place of a [StopIteration], which a generator body cannot let through).
    The outcome is the same on every dataset that has the same items up to
    the k-th, whatever comes later.  Once the items are used up, every
    further [next] raises [StopIteration] and changes nothing: the sequence
    is single-pass. *)
Theorem call_dataset items w :
  __call__ E cls self (VDataset items) args kwargs w
  = (Ok (OutGenerator (iterator items)), w)
  ∧ (∀ k ele,
       items !! k = Some ele →
       ok_before items w k →
       pull E cls self k (iterator items) w
       = (next_outcome (process ele args kwargs (after (take k items) w)).1,
          after (take (S k) items) w)
       ∧ (∀ out,
            (process ele args kwargs (after (take k items) w)).1 = Ok out →
            (pull E cls self k (iterator items) w).1 = Ok out)
       ∧ ∀ items',
           take (S k) items' = take (S k) items →
           pull E cls self k (iterator items') w
           = pull E cls self k (iterator items) w)
  ∧ (ok_before items w (length items) →
     ∀ n, pull E cls self (length items + n) (iterator items) w
          = (Raise StopIteration, after items w)).
Proof.
  split; [reflexivity |]. split; [| intros Hok n; by apply pull_end].
  intros k ele Hk Hok. split; [by apply pull_nth |].
  split; [intros out Hout; by rewrite (pull_nth items k ele w Hk Hok), Hout |].
  intros items' Hpre.
  assert (Hk' : items' !! k = Some ele).
  { by rewrite <- (lookup_take_lt items' (S k) k), Hpre, lookup_take_lt by lia. }
  assert (Hpre_k : take k items' = take k items).
  { rewrite <- (Nat.min_l k (S k)) by lia.
    by rewrite <- !take_take, Hpre. }
  rewrite (pull_nth items' k ele w Hk'),
    (pull_nth items k ele w Hk Hok).
  - by rewrite Hpre_k, Hpre.
  - by apply (all_ok_before_prefix items).
Qed.

End CallFacts.

(** ** The properties at work on the [demo] pipeline *)

(** Settles [all_ok_before] on a concrete list by running each item. *)
Ltac run_ok_before :=
  let j := fresh "j" in
  let x := fresh "x" in
  let Hj := fresh "Hj" in
  let Hx := fresh "Hx" in
  intros j x Hj Hx; simpl in Hj;
  repeat (destruct j as [| j];
          [simpl in Hx; injection Hx as <-; vm_compute; reflexivity |]);
  exfalso; lia.

Lemma call_scalar_witness :
  __call__ E_offline (demo_class E_offline) demo_pipeline (VStr "x") [] ∅ w0
  = (Ok (OutSingle (<["a" := VStr "x"]> ∅)),
     with_log (LogWarningOutputKeysMissing "demo") w0).
Proof.
  apply (proj2 (call_scalar E_offline (demo_class E_offline) demo_pipeline
                  [] ∅ (VStr "x") w0 _ _ eq_refl eq_refl)).
  exists (<["a" := VStr "x"]> ∅), ∅, ∅, ∅, (VStr "x"), (VStr "x"),
    w0, w0, w0, w0.
  repeat split; reflexivity.
Defined.

Lemma call_list_witness :
  ∃ outs,
    __call__ E_offline (demo_class E_offline) demo_pipeline
      (VList [VStr "x"; VStr "y"]) [] ∅ w0
    = (Ok (OutList outs),
       run_items E_offline (demo_class E_offline) demo_pipeline [] ∅
         [VStr "x"; VStr "y"] w0).
Proof.
  apply (proj2 (call_list E_offline (demo_class E_offline) demo_pipeline
                  [] ∅ [VStr "x"; VStr "y"] w0)).
  run_ok_before.
Defined.

Lemma call_list_aborts_witness :
  __call__ E_offline (demo_class E_offline) demo_pipeline
    (VList [VStr "x"; VInt 1; VStr "y"]) [] ∅ w0
  = (Raise (ExternalError "RuntimeError" "text expected"),
     run_items E_offline (demo_class E_offline) demo_pipeline [] ∅
       [VStr "x"; VInt 1] w0).
Proof.
  apply (call_list_aborts E_offline (demo_class E_offline) demo_pipeline
           [] ∅ [VStr "x"; VInt 1; VStr "y"] w0 1 (VInt 1)).
  - reflexivity.
  - run_ok_before.
  - vm_compute. reflexivity.
Defined.

Lemma call_dataset_witness :
  pull E_offline (demo_class E_offline) demo_pipeline 1
    (_process_iterator demo_pipeline [VStr "x"; VStr "y"; VInt 1] [] ∅) w0
  = (next_outcome
       (_process_single E_offline (demo_class E_offline) demo_pipeline
          (VStr "y") [] ∅
          (run_items E_offline (demo_class E_offline) demo_pipeline [] ∅
             [VStr "x"] w0)).1,
     run_items E_offline (demo_class E_offline) demo_pipeline [] ∅
       [VStr "x"; VStr "y"] w0)
  ∧ (∀ out,
       (_process_single E_offline (demo_class E_offline) demo_pipeline
          (VStr "y") [] ∅
          (run_items E_offline (demo_class E_offline) demo_pipeline [] ∅
             [VStr "x"] w0)).1 = Ok out →
       (pull E_offline (demo_class E_offline) demo_pipeline 1
          (_process_iterator demo_pipeline [VStr "x"; VStr "y"; VInt 1] [] ∅)
          w0).1 = Ok out)
  ∧ ∀ items',
      take 2 items' = [VStr "x"; VStr "y"] →
      pull E_offline (demo_class E_offline) demo_pipeline 1
        (_process_iterator demo_pipeline items' [] ∅) w0
      = pull E_offline (demo_class E_offline) demo_pipeline 1
          (_process_iterator demo_pipeline [VStr "x"; VStr "y"; VInt 1] [] ∅)
          w0.
Proof.
  assert (Hok : all_ok_before E_offline (demo_class E_offline) demo_pipeline
                  [] ∅ [VStr "x"; VStr "y"; VInt 1] w0 1)
    by run_ok_before.
  exact (proj1 (proj2 (call_dataset E_offline (demo_class E_offline)
                         demo_pipeline [] ∅ [VStr "x"; VStr "y"; VInt 1] w0))
           1 (VStr "y") eq_refl Hok).
Defined.

(** The batch above, run: the world after the abort has the warning of the
    first item only in its log; the third item was never processed. *)
Example call_list_aborts_demo_log :
  logs (__call__ E_offline (demo_class E_offline) demo_pipeline
          (VList [VStr "x"; VInt 1; VStr "y"]) [] ∅ w0).2
  = [LogWarningOutputKeysMissing "demo"].
Proof. vm_compute. reflexivity. Qed.

(** The dataset above, pulled twice: two items processed, two warnings; the
    failing third item has not been touched. *)
Example call_dataset_demo_log :
  logs (pull E_offline (demo_class E_offline) demo_pipeline 1
          (_process_iterator demo_pipeline [VStr "x"; VStr "y"; VInt 1] [] ∅)
          w0).2
  = [LogWarningOutputKeysMissing "demo"; LogWarningOutputKeysMissing "demo"].
Proof. vm_compute. reflexivity. Qed.

(** A stage that raises [StopIteration]: the list call lets it through to
    its caller, the generator of the dataset call turns it into
    [RuntimeError], and only the end of the dataset is a
    [StopIteration]. *)
Example call_stop_iteration_in_stage :
  (__call__ E_offline (draining_class E_offline) demo_pipeline
     (VList [VStr "x"]) [] ∅ w0).1
  = Raise StopIteration
  ∧ (pull E_offline (draining_class E_offline) demo_pipeline 0
       (_process_iterator demo_pipeline [VStr "x"] [] ∅) w0).1
    = Raise (RuntimeError "generator raised StopIteration")
  ∧ (pull E_offline (draining_class E_offline) demo_pipeline 0
       (_process_iterator demo_pipeline [] [] ∅) w0).1
    = Raise StopIteration.
Proof. repeat split; vm_compute; reflexivity. Qed.

(** * Further properties of the module *)

(** ** Resolution of hub strings and of lists of models *)

Section ResolverMore.

Context {U : Type} (E : externals U).

Implicit Types (model : value) (items : list value) (w : world U).

Lemma initiate_single_model_Model model w :
  isinstance_Model model = true →
  initiate_single_model E model w
  = (Ok model, with_log (LogInfoInitiateModel model) w).
Proof.
  intros Hm. rewrite initiate_single_model_not_str.
  - by apply initiate_other_Model.
  - by destruct model.
Qed.

(** With the hub check passed, the [if] branch decides. *)
Lemma initiate_single_model_hub s w w1 :
  is_official_hub_path E s (with_log (LogInfoInitiateModel (VStr s)) w)
  = (Ok true, w1) →
  initiate_single_model E (VStr s) w = initiate_from_hub E s w1.
Proof.
  intros Hhub. unfold initiate_single_model. run_monad. by rewrite Hhub.
Qed.

(** X1.  A hub string that is on disk already is not downloaded: whether it
    holds a model, and the model, are read from the string itself; if it
    holds none, the string is returned as it came. *)
Theorem initiate_single_model_local s w w1 w2 :
  is_official_hub_path E s (with_log (LogInfoInitiateModel (VStr s)) w)
  = (Ok true, w1) →
  osp_exists E s w1 = (Ok true, w2) →
  initiate_single_model E (VStr s) w
  = match is_model E s w2 with
    | (Ok true, w3) =>
        match Model_from_pretrained E s w3 with
        | (Ok m, w4) => (Ok (VModel m), w4)
        | (Raise e, w4) => (Raise e, w4)
        end
    | (Ok false, w3) => (Ok (VStr s), w3)
    | (Raise e, w3) => (Raise e, w3)
    end.
Proof.
  intros Hhub Hthere. rewrite (initiate_single_model_hub _ _ _ Hhub).
  unfold initiate_from_hub. run_monad. rewrite Hthere. simpl.
  destruct (is_model E s w2) as [[[|] | e] w3]; try done.
Qed.

(** X2.  A hub string that is not on disk is downloaded, and it is the
    downloaded path that is inspected, loaded and, when the snapshot holds
    no model, returned instead of the string that was given. *)
Theorem initiate_single_model_downloaded s w w1 w2 path w3 known w4 :
  is_official_hub_path E s (with_log (LogInfoInitiateModel (VStr s)) w)
  = (Ok true, w1) →
  osp_exists E s w1 = (Ok false, w2) →
  snapshot_download E s w2 = (Ok path, w3) →
  is_model E path w3 = (Ok known, w4) →
  initiate_single_model E (VStr s) w
  = if known
    then match Model_from_pretrained E path w4 with
         | (Ok m, w5) => (Ok (VModel m), w5)
         | (Raise e, w5) => (Raise e, w5)
         end
    else (Ok (VStr path), w4).
Proof.
  intros Hhub Hthere Hdown Hknown.
  rewrite (initiate_single_model_hub _ _ _ Hhub).
  unfold initiate_from_hub. run_monad.
  rewrite Hthere. simpl. rewrite Hdown, Hknown.
  by destruct known.
Qed.

(** Whatever the argument, what resolution returns is a model instance, a
    string or a falsy value. *)
Lemma initiate_single_model_returns_resolved model w r w' :
  initiate_single_model E model w = (Ok r, w') → resolved r.
Proof.
  unfold initiate_single_model, resolved. run_monad.
  destruct (is_hub_str E model (with_log (LogInfoInitiateModel model) w))
    as [[hub | e] w1] eqn:Hhub; [| discriminate].
  assert (Hother : initiate_other model w1 = (Ok r, w') →
    isinstance_Model r = true ∨ isinstance_str r = true ∨ truthy r = false).
  { unfold initiate_other.
    destruct (isinstance_Model model) eqn:Hm.
    - intros H. injection H as <- _. by left.
    - destruct (truthy model) eqn:Ht; simpl.
      + destruct (isinstance_str model) eqn:Hs; simpl; [| discriminate].
        intros H. injection H as <- _. right. by left.
      + intros H. injection H as <- _. right. by right. }
  destruct hub; [| exact Hother].
  destruct model; try exact Hother.
  unfold initiate_from_hub. run_monad. intros H.
  destruct (osp_exists E s w1) as [[there | e] w2]; [| discriminate H].
  assert (Htail : ∀ path w3,
    match is_model E path w3 with
    | (Ok known, w4) =>
        (if known
         then λ w5, match Model_from_pretrained E path w5 with
                    | (Ok m, w6) => (Ok (VModel m), w6)
                    | (Raise e, w6) => (Raise e, w6)
                    end
         else λ w5, (Ok (VStr path), w5)) w4
    | (Raise e, w4) => (Raise e, w4)
    end = (Ok r, w') →
    isinstance_Model r = true ∨ isinstance_str r = true ∨ truthy r = false).
  { intros path w3 Ht.
    destruct (is_model E path w3) as [[[|] | e] w4]; [| | discriminate Ht].
    - destruct (Model_from_pretrained E path w4) as [[m | e] w5];
        [| discriminate Ht].
      injection Ht as <- _. by left.
    - injection Ht as <- _. right. by left. }
  destruct there; simpl in H.
  - by apply (Htail s w2).
  - destruct (snapshot_download E s w2) as [[path | e] w3];
      [| discriminate H].
    by apply (Htail path w3).
Qed.

(** *** The loop of [initiate_multiple_models] *)

Lemma run_models_app items1 items2 w :
  run_models E (items1 ++ items2) w = run_models E items2 (run_models E items1 w).
Proof.
  revert w. induction items1 as [| model rest IH]; intros w; simpl; [done |].
  apply IH.
Qed.

Lemma all_resolved_before_tail model rest w k :
  all_resolved_before E (model :: rest) w (S k) →
  all_resolved_before E rest (initiate_single_model E model w).2 k.
Proof.
  intros H j x Hj Hx. exact (H (S j) x ltac:(lia) Hx).
Qed.

Lemma initiate_models_loop_Ok items models w ms w' :
  initiate_models_loop E items models w = (Ok ms, w') →
  ∃ new,
    ms = models ++ new
    ∧ length new = length items
    ∧ w' = run_models E items w
    ∧ ∀ i model, items !! i = Some model →
        ∃ m, new !! i = Some m
             ∧ (initiate_single_model E model
                  (run_models E (take i items) w)).1 = Ok m.
Proof.
  revert models w.
  induction items as [| model rest IH]; intros models w H; simpl in H.
  - run_monad. injection H as <- <-. exists [].
    rewrite app_nil_r. repeat split; done.
  - unfold bind in H.
    destruct (initiate_single_model E model w) as [[m | e] w1] eqn:Hm;
      [| discriminate H].
    destruct (IH _ _ H) as (new & -> & Hlen & -> & Hnth).
    exists (m :: new). rewrite <- app_assoc. simpl. rewrite Hm. simpl.
    repeat split; [by rewrite Hlen |].
    intros [| i] x Hx; simpl in *.
    + injection Hx as <-. exists m. by rewrite Hm.
    + rewrite Hm. simpl. by apply Hnth.
Qed.

Lemma initiate_models_loop_total items models w :
  all_resolved_before E items w (length items) →
  ∃ ms, initiate_models_loop E items models w = (Ok ms, run_models E items w).
Proof.
  revert models w.
  induction items as [| model rest IH]; intros models w Hok; simpl.
  - by exists models.
  - unfold bind.
    pose proof (Hok 0 model ltac:(simpl; lia) eq_refl) as H0. simpl in H0.
    apply all_resolved_before_tail in Hok.
    destruct (initiate_single_model E model w) as [[m | e] w1] eqn:Hm;
      [| discriminate H0].
    simpl in *. apply IH, Hok.
Qed.

Lemma initiate_models_loop_Raise items models w i model e :
  items !! i = Some model →
  all_resolved_before E items w i →
  (initiate_single_model E model (run_models E (take i items) w)).1 = Raise e →
  initiate_models_loop E items models w
  = (Raise e, run_models E (take (S i) items) w).
Proof.
  revert items models w.
  induction i as [| i IH]; intros [| x rest] models w Hi Hok He;
    try discriminate Hi; simpl in *.
  - injection Hi as ->. unfold bind.
    destruct (initiate_single_model E model w) as [[m | e'] w1]; simpl in *;
      [discriminate He | by injection He as ->].
  - unfold bind.
    pose proof (Hok 0 x ltac:(lia) eq_refl) as H0. simpl in H0.
    apply all_resolved_before_tail in Hok.
    destruct (initiate_single_model E x w) as [[m | e'] w1] eqn:Hm;
      [| discriminate H0].
    simpl in *. by apply IH.
Qed.

(** X3.  Multiple models are resolved one by one in the order given: the result
    has the length of the input and its i-th entry is the resolution of the
    i-th input, made in the world the earlier resolutions left; and the list
    is returned whenever every entry resolves in its turn. *)
Theorem initiate_multiple_models_in_order items w :
  (∀ ms w',
     initiate_multiple_models E items w = (Ok ms, w') →
     length ms = length items
     ∧ w' = run_models E items w
     ∧ ∀ i model, items !! i = Some model →
         ∃ m, ms !! i = Some m
              ∧ (initiate_single_model E model
                   (run_models E (take i items) w)).1 = Ok m)
  ∧ (all_resolved_before E items w (length items) →
     ∃ ms, initiate_multiple_models E items w = (Ok ms, run_models E items w)).
Proof.
  unfold initiate_multiple_models. split.
  - intros ms w' H.
    destruct (initiate_models_loop_Ok _ _ _ _ _ H) as (new & -> & ? & ? & ?).
    done.
  - apply initiate_models_loop_total.
Qed.

(** X4.  The first entry that fails to resolve ends the resolution of the list
    with its exception; the entries after it are not looked at. *)
Theorem initiate_multiple_models_first_failure items w i model e :
  items !! i = Some model →
  all_resolved_before E items w i →
  (initiate_single_model E model (run_models E (take i items) w)).1 = Raise e →
  initiate_multiple_models E items w
  = (Raise e, run_models E (take (S i) items) w).
Proof. apply initiate_models_loop_Raise. Qed.

Lemma initiate_models_loop_instances items models w :
  Forall (λ v, isinstance_Model v = true) items →
  initiate_models_loop E items models w
  = (Ok (models ++ items),
     {| logs := logs w ++ (LogInfoInitiateModel <$> items); ext := ext w |}).
Proof.
  intros Hall. revert models w.
  induction Hall as [| model rest Hm _ IH]; intros models w; simpl.
  - rewrite !app_nil_r. by destruct w.
  - unfold bind. rewrite (initiate_single_model_Model _ _ Hm).
    rewrite IH. unfold with_log. simpl.
    by rewrite <- !app_assoc.
Qed.

(** X5.  A list of model instances is resolved to itself; the only effect is one
    log record per model, in order. *)
Theorem initiate_multiple_models_instances items w :
  Forall (λ v, isinstance_Model v = true) items →
  initiate_multiple_models E items w
  = (Ok items,
     {| logs := logs w ++ (LogInfoInitiateModel <$> items); ext := ext w |}).
Proof.
  intros Hall. unfold initiate_multiple_models.
  by rewrite initiate_models_loop_instances.
Qed.

End ResolverMore.

(** ** Construction, and the default [forward] on what it builds *)

Section InitMore.

Context {U : Type} (E : externals U).

Implicit Types (arg pre : value) (w : world U) (p : pipeline).

(** X6.  The configuration file is read first: if reading it fails, construction
    fails with that exception and no model is resolved or downloaded. *)
Theorem init_config_failure f arg pre w e w1 :
  Config_from_file E f w = (Raise e, w1) →
  __init__ E (Some f) arg pre w = (Raise e, w1).
Proof.
  intros Hcfg. unfold __init__. run_monad. by rewrite Hcfg.
Qed.

(** X7.  A constructed pipeline has the attribute [cfg] exactly when a
    configuration file was given, and it then holds the parsed file; the
    preprocessor is stored as it was given, unchecked. *)
Theorem init_cfg_preprocessor config_file arg pre w p w' :
  __init__ E config_file arg pre w = (Ok p, w') →
  preprocessor p = pre
  ∧ match config_file with
    | None => cfg p = None
    | Some f => ∃ c w1, Config_from_file E f w = (Ok c, w1) ∧ cfg p = Some c
    end.
Proof.
  intros Hinit. unfold __init__ in Hinit. run_monad.
  destruct config_file as [f |].
  - destruct (Config_from_file E f w) as [[c | e] w1]; [| discriminate Hinit].
    match type of Hinit with
    | match ?t with _ => _ end = _ =>
        destruct t as [[attrs | e] w2]; [| discriminate Hinit]
    end.
    injection Hinit as <- _. simpl. eauto.
  - match type of Hinit with
    | match ?t with _ => _ end = _ =>
        destruct t as [[attrs | e] w2]; [| discriminate Hinit]
    end.
    by injection Hinit as <- _.
Qed.

(** X8.  Built from a list, the pipeline holds as many resolved models as the
    list has entries, each of them a model instance, a string or a falsy
    value, and the multi-model flag is on iff the list has more than one
    entry. *)
Theorem init_list_models config_file items pre w p w' :
  __init__ E config_file (VList items) pre w = (Ok p, w') →
  length (models p) = length items
  ∧ (has_multiple_models p = true ↔ 1 < length items)
  ∧ Forall resolved (models p).
Proof.
  intros Hinit.
  destruct (init_list_inv _ _ _ _ _ _ _ Hinit) as (c & ms & w1 & Hms & ->).
  unfold initiate_multiple_models in Hms.
  destruct (initiate_models_loop_Ok _ _ _ _ _ _ Hms)
    as (new & -> & Hlen & _ & Hnth).
  simpl. rewrite bool_decide_eq_true, Hlen. repeat split; try done.
  apply Forall_lookup_2. intros i m Hm.
  destruct (lookup_lt_is_Some_2 items i) as [x Hx].
  { rewrite <- Hlen. by eapply lookup_lt_Some. }
  destruct (Hnth i x Hx) as (m' & Hm' & Hres).
  rewrite Hm in Hm'. injection Hm' as <-.
  destruct (initiate_single_model E x (run_models E (take i items) w1))
    as [r w2] eqn:Hr.
  simpl in Hres. subst r.
  by eapply initiate_single_model_returns_resolved.
Qed.

(** X9.  Built from a bare model instance, the pipeline's default [forward] is
    the call of that very model on the inputs with the forward
    parameters. *)
Theorem init_Model_forward config_file m pre w p w' inputs forward_params w2 :
  __init__ E config_file (VModel m) pre w = (Ok p, w') →
  forward E p inputs forward_params w2
  = Model_call E m inputs forward_params w2.
Proof.
  intros Hinit.
  destruct (init_bare_inv E config_file (VModel m) pre w p w' eq_refl Hinit)
    as (c & r & w1 & Hr & ->).
  rewrite initiate_single_model_Model in Hr by done.
  injection Hr as <- _. reflexivity.
Qed.

(** X10.  Built without a model, the pipeline's default [forward] fails its first
    assertion and leaves the world alone. *)
Theorem init_no_model_forward config_file pre w p w' inputs forward_params w2 :
  __init__ E config_file VNone pre w = (Ok p, w') →
  forward E p inputs forward_params w2
  = (Raise (AssertionError "forward method should be implemented"), w2).
Proof.
  intros Hinit.
  destruct (init_bare_inv E config_file VNone pre w p w' eq_refl Hinit)
    as (c & r & w1 & Hr & ->).
  rewrite initiate_single_model_not_str in Hr by done.
  rewrite initiate_other_falsy in Hr by done.
  injection Hr as <- _. reflexivity.
Qed.

(** X11.  A model name that the hub check rejects is accepted by the constructor
    as it is: the pipeline holds the string, and the default [forward]
    fails only when it calls it. *)
Theorem init_unrecognised_str_forward s pre w w1 :
  is_official_hub_path E s (with_log (LogInfoInitiateModel (VStr s)) w)
  = (Ok false, w1) →
  __init__ E None (VStr s) pre w
  = (Ok {| cfg := None; model := Some (VStr s); models := [VStr s];
           has_multiple_models := false; preprocessor := pre |}, w1)
  ∧ ∀ inputs forward_params w2,
      forward E {| cfg := None; model := Some (VStr s); models := [VStr s];
                   has_multiple_models := false; preprocessor := pre |}
        inputs forward_params w2
      = (Raise (TypeError "object is not callable"), w2).
Proof.
  intros Hhub. split; [| done].
  unfold __init__. run_monad.
  rewrite (initiate_single_model_no_hub E (VStr s) w w1 Hhub).
  by rewrite initiate_other_str.
Qed.

End InitMore.

(** ** The stages of single-item processing *)

Section StagesMore.

Context {U : Type} (E : externals U) (cls : pipeline_class U).
Context (self : pipeline).

Implicit Types (input : value) (args : list value) (kwargs : pydict)
  (w : world U).

(** X12.  With the sanitizer of the base class no keyword parameter reaches
    [preprocess] or [forward]: both are called with the empty mapping, and
    [postprocess] with every parameter of the call. *)
Theorem process_single_default_sanitizer input args kwargs w out w' :
  m_sanitize_parameters cls = _sanitize_parameters →
  _process_single E cls self input args kwargs w = (Ok out, w')
  ↔ ∃ a b w2 w3 w4,
      m_preprocess cls self input ∅ w = (Ok a, w2)
      ∧ m_forward cls self a ∅ w2 = (Ok b, w3)
      ∧ m_postprocess cls self b kwargs w3 = (Ok out, w4)
      ∧ _check_output E cls self out w4 = (Ok tt, w').
Proof.
  intros Hsan. rewrite process_single_Ok, Hsan. split.
  - intros (pp & fp & qp & a & b & w1 & w2 & w3 & w4 & H & Hrest).
    injection H as <- <- <- <-. by exists a, b, w2, w3, w4.
  - intros (a & b & w2 & w3 & w4 & Hrest).
    by exists ∅, ∅, kwargs, a, b, w, w2, w3, w4.
Qed.

(** X13.  A stage that raises ends the processing of the item with its exception
    and in the world it left: no later stage runs, nothing is validated. *)
Theorem process_single_stage_failure input args kwargs w pp fp qp w1 :
  m_sanitize_parameters cls self kwargs w = (Ok (pp, fp, qp), w1) →
  (∀ e w2,
     m_preprocess cls self input pp w1 = (Raise e, w2) →
     _process_single E cls self input args kwargs w = (Raise e, w2))
  ∧ (∀ a w2 e w3,
       m_preprocess cls self input pp w1 = (Ok a, w2) →
       m_forward cls self a fp w2 = (Raise e, w3) →
       _process_single E cls self input args kwargs w = (Raise e, w3))
  ∧ (∀ a w2 b w3 e w4,
       m_preprocess cls self input pp w1 = (Ok a, w2) →
       m_forward cls self a fp w2 = (Ok b, w3) →
       m_postprocess cls self b qp w3 = (Raise e, w4) →
       _process_single E cls self input args kwargs w = (Raise e, w4)).
Proof.
  intros Hsan. unfold _process_single. run_monad. rewrite Hsan.
  repeat split.
  - intros e w2 Hpre. by rewrite Hpre.
  - intros a w2 e w3 Hpre Hfwd. by rewrite Hpre, Hfwd.
  - intros a w2 b w3 e w4 Hpre Hfwd Hpost. by rewrite Hpre, Hfwd, Hpost.
Qed.

(** X14.  An output that lacks a key registered for the task is not returned:
    the item fails with the [ValueError] that lists the absent keys, after
    the three stages have run and had their effects. *)
Theorem process_single_invalid_output input args kwargs w
    pp fp qp a b out w1 w2 w3 w4 output_keys k :
  m_sanitize_parameters cls self kwargs w = (Ok (pp, fp, qp), w1) →
  m_preprocess cls self input pp w1 = (Ok a, w2) →
  m_forward cls self a fp w2 = (Ok b, w3) →
  m_postprocess cls self b qp w3 = (Ok out, w4) →
  TASK_OUTPUTS E !! group_key cls = Some output_keys →
  k ∈ output_keys → out !! k = None →
  _process_single E cls self input args kwargs w
  = (Raise (ValueError (MsgMissingKeys output_keys
              (filter (λ k, not_in k out = true) output_keys))), w4).
Proof.
  intros Hsan Hpre Hfwd Hpost Hreg Hk Hnone.
  unfold _process_single. run_monad.
  rewrite Hsan, Hpre, Hfwd, Hpost, check_output_eval, Hreg.
  destruct (filter (λ k, not_in k out = true) output_keys) eqn:Hmissing;
    [| done].
  exfalso. eapply (not_elem_of_nil k). rewrite <- Hmissing.
  apply list_elem_of_filter. by rewrite not_in_spec.
Qed.

(** X15.  The body of the base-class [postprocess] only raises.  A concrete
    pipeline class whose own [postprocess] hands over to it (by
    [super().postprocess(inputs, **postprocess_params)]) therefore never
    returns an output: when the stages before it succeed, the item fails
    with [NotImplementedError('postprocess')] in the world they left. *)
Theorem process_single_super_postprocess input args kwargs w :
  (∀ inputs postprocess_params,
     m_postprocess cls self inputs postprocess_params
     = postprocess self inputs postprocess_params) →
  (∀ out w', _process_single E cls self input args kwargs w ≠ (Ok out, w'))
  ∧ (∀ pp fp qp a b w1 w2 w3,
       m_sanitize_parameters cls self kwargs w = (Ok (pp, fp, qp), w1) →
       m_preprocess cls self input pp w1 = (Ok a, w2) →
       m_forward cls self a fp w2 = (Ok b, w3) →
       _process_single E cls self input args kwargs w
       = (Raise (NotImplementedError "postprocess"), w3)).
Proof.
  intros Hpost. split.
  - intros out w' H. apply process_single_Ok in H.
    destruct H as (pp & fp & qp & a & b & w1 & w2 & w3 & w4
                   & _ & _ & _ & H & _).
    rewrite Hpost in H. discriminate H.
  - intros pp fp qp a b w1 w2 w3 Hsan Hpre Hfwd.
    unfold _process_single. run_monad.
    by rewrite Hsan, Hpre, Hfwd, Hpost.
Qed.

(** X16.  With the [preprocess] and the sanitizer of the base class, a pipeline
    that was given no preprocessor, or a list of them, fails on every item
    with an [AssertionError] before anything else is done. *)
Theorem process_single_no_preprocessor input args kwargs w :
  m_sanitize_parameters cls = _sanitize_parameters →
  m_preprocess cls = preprocess E →
  (preprocessor self = VNone →
   _process_single E cls self input args kwargs w
   = (Raise (AssertionError "preprocess method should be implemented"), w))
  ∧ (isinstance_list (preprocessor self) = true →
     _process_single E cls self input args kwargs w
     = (Raise (AssertionError
          "default implementation does not support using multiple preprocessors."),
        w)).
Proof.
  intros Hsan Hpre. unfold _process_single. rewrite Hsan, Hpre.
  unfold preprocess. run_monad. split.
  - by intros ->.
  - intros Hl. by destruct (preprocessor self).
Qed.

(** X17.  Validation depends on the keys only and is monotone in them: an output
    that passes still passes when further keys are added to it. *)
Theorem check_output_monotone (out out' : pydict) w w' :
  out ⊆ out' →
  _check_output E cls self out w = (Ok tt, w') →
  _check_output E cls self out' w = (Ok tt, w').
Proof.
  intros Hsub. rewrite !check_output_eval.
  destruct (TASK_OUTPUTS E !! group_key cls) as [output_keys |]; [| done].
  destruct (filter (λ k, not_in k out = true) output_keys) eqn:Hout;
    [| discriminate].
  intros H.
  destruct (filter (λ k, not_in k out' = true) output_keys)
    as [| k0 ks] eqn:Hout'; [done |].
  exfalso. eapply (not_elem_of_nil k0). rewrite <- Hout.
  assert (Hk0 : k0 ∈ filter (λ k, not_in k out' = true) output_keys)
    by (rewrite Hout'; left).
  apply list_elem_of_filter in Hk0. destruct Hk0 as [Hnone Hk0].
  apply list_elem_of_filter. split; [| done].
  apply not_in_spec. apply not_in_spec in Hnone.
  by eapply lookup_weaken_None.
Qed.

End StagesMore.

(** ** Batches and generators *)

Section CallMore.

Context {U : Type} (E : externals U) (cls : pipeline_class U).
Context (self : pipeline) (kwargs : pydict).

Implicit Types (input ele : value) (items args : list value) (w : world U).

(** X18.  After an item has failed the generator is finished: every further
    [next] raises [StopIteration], and the items after the failed one are
    never processed. *)
Theorem generator_finished_after_failure args items k ele e w n :
  items !! k = Some ele →
  all_ok_before E cls self args kwargs items w k →
  (_process_single E cls self ele args kwargs
     (run_items E cls self args kwargs (take k items) w)).1 = Raise e →
  pull E cls self (S k + n) (_process_iterator self items args kwargs) w
  = (Raise StopIteration,
     run_items E cls self args kwargs (take (S k) items) w).
Proof.
  intros Hk Hok He. unfold pull.
  replace (S k + n) with (k + (1 + n)) by lia.
  rewrite gen_advance_add, gen_advance_ok;
    [| apply lookup_lt_Some in Hk; lia | done].
  rewrite (run_items_take_S E cls self args kwargs items k ele w Hk).
  set (wk := run_items E cls self args kwargs (take k items) w) in *.
  set (g0 := {| gen_rest := Some (drop k items); gen_args := args;
                gen_kwargs := kwargs |}).
  assert (Hnext : gen_next E cls self g0 wk
    = (Raise (generator_raise e), finished g0,
       (_process_single E cls self ele args kwargs wk).2)).
  { unfold gen_next, g0. simpl. rewrite (drop_S _ _ _ Hk).
    destruct (_process_single E cls self ele args kwargs wk)
      as [[out | e'] w1]; simpl in *; [discriminate He | congruence]. }
  simpl. rewrite Hnext. simpl.
  assert (Hg : exhausted (finished g0)) by by left.
  destruct (gen_advance_exhausted E cls self n (finished g0)
              (_process_single E cls self ele args kwargs wk).2 Hg)
    as (Hg' & ->).
  destruct (gen_next_exhausted E cls self _
              (_process_single E cls self ele args kwargs wk).2 Hg')
    as (-> & _ & ->).
  done.
Qed.

(** X19.  A list and a dataset of the same items give the same results: if the
    call on the list returns [outs], pulling the generator of the dataset in
    the same world yields the elements of [outs] one by one, then
    [StopIteration], and ends in the world the list call ended in. *)
Theorem list_and_dataset_agree args items w outs w' :
  __call__ E cls self (VList items) args kwargs w = (Ok (OutList outs), w') →
  (∀ i out,
     outs !! i = Some out →
     pull E cls self i (_process_iterator self items args kwargs) w
     = (Ok out, run_items E cls self args kwargs (take (S i) items) w))
  ∧ pull E cls self (length items) (_process_iterator self items args kwargs) w
    = (Raise StopIteration, w').
Proof.
  intros H. simpl in H. unfold bind in H.
  destruct (call_loop E cls self items args kwargs [] w)
    as [[outs' | e] w1] eqn:Hloop; [| discriminate H].
  injection H as <- <-.
  destruct (call_loop_Ok E cls self args kwargs items [] w outs' w1 Hloop)
    as (new & -> & Hlen & -> & Hnth).
  simpl.
  assert (Hok : ∀ k, all_ok_before E cls self args kwargs items w k).
  { intros k j x _ Hx. destruct (Hnth j x Hx) as (out & _ & ->). done. }
  split.
  - intros i out Hout.
    destruct (lookup_lt_is_Some_2 items i) as [ele Hele].
    { rewrite <- Hlen. by eapply lookup_lt_Some. }
    destruct (Hnth i ele Hele) as (out' & Hout' & Hres).
    rewrite Hout in Hout'. injection Hout' as <-.
    rewrite (pull_nth E cls self args kwargs items i ele w Hele (Hok i)).
    by rewrite Hres.
  - rewrite <- (Nat.add_0_r (length items)) at 1.
    by apply pull_end.
Qed.

Lemma call_loop_args args args' items output w :
  call_loop E cls self items args kwargs output w
  = call_loop E cls self items args' kwargs output w.
Proof.
  revert output w.
  induction items as [| ele rest IH]; intros output w; simpl; [done |].
  unfold bind.
  change (_process_single E cls self ele args' kwargs w)
    with (_process_single E cls self ele args kwargs w).
  destruct (_process_single E cls self ele args kwargs w) as [[out | e] w1];
    [apply IH | done].
Qed.

Lemma gen_next_args g g' w :
  gen_rest g = gen_rest g' → gen_kwargs g = gen_kwargs g' →
  (gen_next E cls self g w).1.1 = (gen_next E cls self g' w).1.1
  ∧ (gen_next E cls self g w).2 = (gen_next E cls self g' w).2
  ∧ gen_rest (gen_next E cls self g w).1.2
    = gen_rest (gen_next E cls self g' w).1.2
  ∧ gen_kwargs (gen_next E cls self g w).1.2
    = gen_kwargs (gen_next E cls self g' w).1.2.
Proof.
  intros Hrest Hkw. unfold gen_next. rewrite <- Hrest, <- Hkw.
  destruct (gen_rest g) as [[| ele rest] |] eqn:Hg; simpl;
    [repeat split; auto | | repeat split; congruence].
  change (_process_single E cls self ele (gen_args g') (gen_kwargs g) w)
    with (_process_single E cls self ele (gen_args g) (gen_kwargs g) w).
  by destruct (_process_single E cls self ele (gen_args g) (gen_kwargs g) w)
    as [[out | e] w1].
Qed.

Lemma pull_args k g g' w :
  gen_rest g = gen_rest g' → gen_kwargs g = gen_kwargs g' →
  pull E cls self k g w = pull E cls self k g' w.
Proof.
  revert g g' w. induction k as [| k IH]; intros g g' w Hrest Hkw.
  - unfold pull. simpl.
    destruct (gen_next_args g g' w Hrest Hkw) as (-> & -> & _). done.
  - unfold pull in *. simpl.
    destruct (gen_next_args g g' w Hrest Hkw) as (_ & Hw & Hr & Hk).
    rewrite Hw. by apply IH.
Qed.

(** X20.  Positional arguments of a call are passed along and never used: two
    calls that differ in them only return the same and leave the same
    world; for a dataset, every [next] does. *)
Theorem call_ignores_args args args' input w :
  (isinstance_PyDataset input = false →
   __call__ E cls self input args kwargs w
   = __call__ E cls self input args' kwargs w)
  ∧ (∀ items k,
       pull E cls self k (_process_iterator self items args kwargs) w
       = pull E cls self k (_process_iterator self items args' kwargs) w).
Proof.
  split.
  - intros Hd. destruct input; try discriminate Hd; try reflexivity.
    simpl. unfold bind. by rewrite (call_loop_args args args').
  - intros items k. by apply pull_args.
Qed.

End CallMore.

(** ** The further properties at work *)

Lemma initiate_single_model_local_witness :
  initiate_single_model E_local (VStr "damo/m") w0
  = (Ok (VModel 6), with_log (LogInfoInitiateModel (VStr "damo/m")) w0).
Proof.
  exact (initiate_single_model_local E_local "damo/m" w0 _ _ eq_refl eq_refl).
Defined.

Lemma initiate_single_model_downloaded_witness :
  initiate_single_model E_hub (VStr "damo/x") w0
  = (Ok (VStr "/cache/damo/x"),
     with_log (LogInfoInitiateModel (VStr "damo/x")) w0).
Proof.
  exact (initiate_single_model_downloaded E_hub "damo/x" w0 _ _ _ _ _ _
           eq_refl eq_refl eq_refl eq_refl).
Defined.

Lemma initiate_multiple_models_in_order_witness :
  ∃ ms,
    initiate_multiple_models E_offline [VModel 1; VStr "name"; VNone] w0
    = (Ok ms, run_models E_offline [VModel 1; VStr "name"; VNone] w0).
Proof.
  apply (proj2 (initiate_multiple_models_in_order E_offline
                  [VModel 1; VStr "name"; VNone] w0)).
  run_ok_before.
Defined.

Lemma initiate_multiple_models_first_failure_witness :
  initiate_multiple_models E_offline [VModel 1; VInt 3; VModel 2] w0
  = (Raise (ValueError (MsgModelType TInt)),
     run_models E_offline [VModel 1; VInt 3] w0).
Proof.
  apply (initiate_multiple_models_first_failure E_offline
           [VModel 1; VInt 3; VModel 2] w0 1 (VInt 3)).
  - reflexivity.
  - run_ok_before.
  - reflexivity.
Defined.

Lemma initiate_multiple_models_instances_witness :
  initiate_multiple_models E_offline [VModel 1; VModel 2] w0
  = (Ok [VModel 1; VModel 2],
     {| logs := [LogInfoInitiateModel (VModel 1);
                 LogInfoInitiateModel (VModel 2)];
        ext := tt |}).
Proof.
  apply (initiate_multiple_models_instances E_offline [VModel 1; VModel 2] w0).
  repeat constructor.
Defined.

Lemma init_config_failure_witness :
  __init__ E_local (Some "configuration.json") (VStr "damo/m") VNone w0
  = (Raise (ExternalError "FileNotFoundError" "config"), w0).
Proof.
  exact (init_config_failure E_local "configuration.json" (VStr "damo/m")
           VNone w0 _ _ eq_refl).
Defined.

Lemma init_cfg_preprocessor_witness :
  preprocessor (Pipeline (Some ∅) (Some (VModel 7)) [VModel 7] false
                  (VPreprocessor 1)) = VPreprocessor 1
  ∧ ∃ c w1,
      Config_from_file E_offline "configuration.json" w0 = (Ok c, w1)
      ∧ cfg (Pipeline (Some ∅) (Some (VModel 7)) [VModel 7] false
               (VPreprocessor 1)) = Some c.
Proof.
  exact (init_cfg_preprocessor E_offline (Some "configuration.json")
           (VModel 7) (VPreprocessor 1) w0 _ _ eq_refl).
Defined.

Lemma init_list_models_witness :
  length (models (Pipeline None None [VModel 1; VModel 2] true VNone)) = 2
  ∧ (has_multiple_models (Pipeline None None [VModel 1; VModel 2] true VNone)
     = true ↔ 1 < 2)
  ∧ Forall resolved
      (models (Pipeline None None [VModel 1; VModel 2] true VNone)).
Proof.
  exact (init_list_models E_offline None [VModel 1; VModel 2] VNone w0 _ _
           eq_refl).
Defined.

Lemma init_Model_forward_witness :
  forward E_offline demo_pipeline (VStr "x") ∅ w0
  = Model_call E_offline 7 (VStr "x") ∅ w0.
Proof.
  exact (init_Model_forward E_offline None 7 (VPreprocessor 1) w0 _ _
           (VStr "x") ∅ w0 eq_refl).
Defined.

Lemma init_no_model_forward_witness :
  forward E_offline (Pipeline None (Some VNone) [VNone] false VNone)
    (VStr "x") ∅ w0
  = (Raise (AssertionError "forward method should be implemented"), w0).
Proof.
  exact (init_no_model_forward E_offline None VNone w0 _ _ (VStr "x") ∅ w0
           eq_refl).
Defined.

Lemma init_unrecognised_str_forward_witness :
  __init__ E_offline None (VStr "damo/unknown") VNone w0
  = (Ok (Pipeline None (Some (VStr "damo/unknown")) [VStr "damo/unknown"]
           false VNone),
     with_log (LogInfoInitiateModel (VStr "damo/unknown")) w0).
Proof.
  exact (proj1 (init_unrecognised_str_forward E_offline "damo/unknown" VNone
                  w0 _ eq_refl)).
Defined.

Lemma process_single_default_sanitizer_witness :
  _process_single E_offline (demo_class E_offline) demo_pipeline (VStr "x")
    [] {[ "top" := VInt 3 ]} w0
  = (Ok (<["a" := VStr "x"]> {[ "top" := VInt 3 ]}),
     with_log (LogWarningOutputKeysMissing "demo") w0).
Proof.
  apply (proj2 (process_single_default_sanitizer E_offline
                  (demo_class E_offline) demo_pipeline (VStr "x") []
                  {[ "top" := VInt 3 ]} w0 _ _ eq_refl)).
  exists (VStr "x"), (VStr "x"), w0, w0, w0.
  repeat split; reflexivity.
Defined.

Lemma process_single_stage_failure_witness :
  _process_single E_offline (demo_class E_offline) demo_pipeline (VInt 1)
    [] ∅ w0
  = (Raise (ExternalError "RuntimeError" "text expected"), w0).
Proof.
  exact (proj1 (proj2 (process_single_stage_failure E_offline
                         (demo_class E_offline) demo_pipeline (VInt 1) [] ∅
                         w0 ∅ ∅ ∅ w0 eq_refl))
           (VInt 1) w0 _ w0 eq_refl eq_refl).
Defined.

Lemma process_single_invalid_output_witness :
  _process_single E_hub (demo_class E_hub) demo_pipeline (VStr "x") [] ∅ w0
  = (Raise (ValueError (MsgMissingKeys ["a"; "b"]
              (filter (λ k, not_in k (<["a" := VStr "x"]> ∅) = true)
                 ["a"; "b"]))), w0).
Proof.
  apply (process_single_invalid_output E_hub (demo_class E_hub) demo_pipeline
           (VStr "x") [] ∅ w0 ∅ ∅ ∅ (VStr "x") (VStr "x")
           (<["a" := VStr "x"]> ∅) w0 w0 w0 w0 ["a"; "b"] "b");
    try reflexivity.
  right. left.
Defined.

Lemma process_single_super_postprocess_witness :
  _process_single E_offline (delegating_class E_offline "demo") demo_pipeline
    (VStr "x") [] ∅ w0
  = (Raise (NotImplementedError "postprocess"), w0).
Proof.
  exact (proj2 (process_single_super_postprocess E_offline
                  (delegating_class E_offline "demo") demo_pipeline (VStr "x")
                  [] ∅ w0 (fun _ _ => eq_refl))
           ∅ ∅ ∅ (VStr "x") (VStr "x") w0 w0 w0 eq_refl eq_refl eq_refl).
Defined.

Lemma process_single_no_preprocessor_witness :
  _process_single E_offline (demo_class E_offline)
    (Pipeline None (Some (VModel 7)) [VModel 7] false VNone) (VStr "x") [] ∅ w0
  = (Raise (AssertionError "preprocess method should be implemented"), w0).
Proof.
  exact (proj1 (process_single_no_preprocessor E_offline
                  (demo_class E_offline)
                  (Pipeline None (Some (VModel 7)) [VModel 7] false VNone)
                  (VStr "x") [] ∅ w0 eq_refl eq_refl) eq_refl).
Defined.

Lemma check_output_monotone_witness :
  _check_output E_local (demo_class E_local) demo_pipeline
    (<["z" := VInt 2]> {[ "a" := VInt 1 ]}) w0
  = (Ok tt, w0).
Proof.
  apply (check_output_monotone E_local (demo_class E_local) demo_pipeline
           {[ "a" := VInt 1 ]} (<["z" := VInt 2]> {[ "a" := VInt 1 ]}) w0 w0).
  - apply insert_subseteq. reflexivity.
  - reflexivity.
Defined.

Lemma generator_finished_after_failure_witness :
  pull E_offline (demo_class E_offline) demo_pipeline 3
    (_process_iterator demo_pipeline [VStr "x"; VInt 1; VStr "y"] [] ∅) w0
  = (Raise StopIteration,
     run_items E_offline (demo_class E_offline) demo_pipeline [] ∅
       [VStr "x"; VInt 1] w0).
Proof.
  apply (generator_finished_after_failure E_offline (demo_class E_offline)
           demo_pipeline ∅ [] [VStr "x"; VInt 1; VStr "y"] 1 (VInt 1)
           (ExternalError "RuntimeError" "text expected") w0 1).
  - reflexivity.
  - run_ok_before.
  - vm_compute. reflexivity.
Defined.

Lemma list_and_dataset_agree_witness :
  pull E_offline (demo_class E_offline) demo_pipeline 2
    (_process_iterator demo_pipeline [VStr "x"; VStr "y"] [] ∅) w0
  = (Raise StopIteration,
     run_items E_offline (demo_class E_offline) demo_pipeline [] ∅
       [VStr "x"; VStr "y"] w0).
Proof.
  exact (proj2 (list_and_dataset_agree E_offline (demo_class E_offline)
                  demo_pipeline ∅ [] [VStr "x"; VStr "y"] w0 _ _ eq_refl)).
Defined.

Lemma call_ignores_args_witness :
  __call__ E_offline (demo_class E_offline) demo_pipeline (VStr "x")
    [VInt 1] ∅ w0
  = __call__ E_offline (demo_class E_offline) demo_pipeline (VStr "x")
      [] ∅ w0.
Proof.
  exact (proj1 (call_ignores_args E_offline (demo_class E_offline)
                  demo_pipeline ∅ [VInt 1] [] (VStr "x") w0) eq_refl).
Defined.
